(** * Resolution engine of the music recommendation service

    A shallow embedding of [recommendation_service.py]: the class
    [Recommendations] with its methods [load], [_order_personal],
    [_order_top], [get_offline] and [get_with_online], and the properties
    the specification states of them.

    Modelling conventions.
    - A Python number that stands for an id, a rank or a count is its value
      in [Z].  An [int] is that value; a [float] that holds a whole number
      (what a track id becomes when pandas hands a row over as a [Series] of
      float64) is the integer it equals, so that the upcast shows as the
      rounding [astype_float64].  Python's [==] and [in] and the conversion
      to [int] of the response model do not tell [5] from [5.0].  The int64
      range of a table cell is not modelled.
    - A stored [float] (the [score] column) is a rational in [Q]: only its
      order is ever used.  NaN and missing values in a table are not
      modelled.
    - The arithmetic of the blend is binary64: Rocq's primitive IEEE 754
      floats, which is what Python and numpy compute, NaN included.  It is
      written over the interface [Float], whose instance is [binary64].
    - A pandas [DataFrame] is a list of column names and a list of rows, each
      row carrying its index label.  [df.loc[label]] returns a [Series] when
      one row has the label and a frame when several have it.
    - pandas sorts a frame on several keys with [numpy.lexsort], a stable
      sort ([stable_sort] below).  On a single key it sets the rows whose
      key is NaN aside and calls numpy's [argsort] with the default
      [kind="quicksort"], which promises a sorted rearrangement and nothing
      about ties: that sort is the interface [Sorter], and its promise is
      [SorterSpec].
    - A method is a function in the monad [M] of a mutable object and Python
      exceptions.

    The file has the model first ([load], the orderings, [get_offline],
    [get_with_online], the application), then the vocabulary and the tables
    of the statements, then the facts, the claims C1 to C10, and further
    properties of the code. *)

From Stdlib Require Import ZArith QArith List String Bool Permutation Sorting Lia Lqa.
From Stdlib Require Import Uint63 PrimFloat SpecFloat FloatOps.
From Stdlib Require FloatAxioms.
Import ListNotations.

Local Open Scope string_scope.
Local Open Scope list_scope.
Local Open Scope Z_scope.

(** ** Exceptions and the method monad *)

Inductive exn : Type :=
| KeyError (key : string)
| ValueError (msg : string)
| ClientError (msg : string).

Inductive result (A : Type) : Type :=
| Ok (a : A)
| Raise (e : exn).

Arguments Ok {A} a.
Arguments Raise {A} e.

(** A computation on a mutable object of type [S]: the object survives an
    exception with whatever was written to it before the raise. *)
Definition M (S A : Type) : Type := S -> result A * S.

Definition ret {S A} (a : A) : M S A := fun s => (Ok a, s).

Definition raise {S A} (e : exn) : M S A := fun s => (Raise e, s).

Definition bind {S A B} (m : M S A) (f : A -> M S B) : M S B :=
  fun s => match m s with
           | (Ok a, s') => f a s'
           | (Raise e, s') => (Raise e, s')
           end.

Definition get {S} : M S S := fun s => (Ok s, s).

Definition modify {S} (f : S -> S) : M S unit := fun s => (Ok tt, f s).

Definition lift {S A} (r : result A) : M S A := fun s => (r, s).

(** [try: body / except KeyError: pass]: [Some] when the body returned. *)
Definition try_except_KeyError {S A} (body : M S A) : M S (option A) :=
  fun s => match body s with
           | (Ok a, s') => (Ok (Some a), s')
           | (Raise (KeyError _), s') => (Ok None, s')
           | (Raise e, s') => (Raise e, s')
           end.

Notation "x <- m ;; f" := (bind m (fun x => f))
  (at level 61, m at next level, right associativity).
Notation "m ;;; f" := (bind m (fun _ => f))
  (at level 61, right associativity).

(** ** Numbers *)

(** [float(z)]: the binary64 number nearest to the integer [z], ties to the
    even one. *)
Definition float_of_int (z : Z) : float :=
  SF2Prim (binary_normalize 53 1024 z 0 false).

(** The integer that a finite binary64 number holds (its floor, were it not
    whole). *)
Definition float_value (f : float) : Z :=
  match Prim2SF f with
  | S754_finite s m e =>
      let v := Z.shiftl (Z.pos m) e in
      if s then - v else v
  | _ => 0
  end.

(** An integer cell after [astype("float64")], by value: [z] rounded to 53
    significant bits. *)
Definition astype_float64 (z : Z) : Z := float_value (float_of_int z).

(** ** Data frames *)

Record Row : Type := mkRow {
  idx : Z;            (* the index label of the row *)
  user_id : Z;
  track_id : Z;
  score : Q;
  rank : Z;
  listen_count : Z
}.

(** The fields of a row whose column is not in [columns] are never read. *)
Record DataFrame : Type := mkDataFrame {
  columns : list string;
  rows : list Row
}.

Definition with_rows (df : DataFrame) (rs : list Row) : DataFrame :=
  mkDataFrame (columns df) rs.

Definition set_idx (i : Z) (r : Row) : Row :=
  mkRow i (user_id r) (track_id r) (score r) (rank r) (listen_count r).

(** [c in df.columns] *)
Definition has_column (c : string) (df : DataFrame) : bool :=
  existsb (String.eqb c) (columns df).

(** [df.set_index("user_id")]: the column becomes the index. *)
Definition set_index_user_id (df : DataFrame) : DataFrame :=
  mkDataFrame (filter (fun c => negb (String.eqb c "user_id")) (columns df))
              (map (fun r => set_idx (user_id r) r) (rows df)).

(** The values of one row as a [Series]: they get one dtype, and with a
    float column among them ([score]) the integer cells become float64. *)
Definition as_series (df : DataFrame) (r : Row) : Row :=
  if has_column "score" df then
    mkRow (idx r) (astype_float64 (user_id r)) (astype_float64 (track_id r))
          (score r) (astype_float64 (rank r)) (astype_float64 (listen_count r))
  else r.

(** What [df.loc[label]] hands over. *)
Inductive Located : Type :=
| Series (index : list string) (values : Row)
| Frame (df : DataFrame).

(** [df.loc[label]]: [KeyError] when no row has the label, a [Series] of the
    row when one has it, and the frame of the rows, in table order, when
    several have it. *)
Definition loc (df : DataFrame) (label : Z) : result Located :=
  match filter (fun r => idx r =? label) (rows df) with
  | [] => Raise (KeyError "user_id")
  | [r] => Ok (Series (columns df) (as_series df r))
  | rs => Ok (Frame (with_rows df rs))
  end.

(** [s.to_frame().T]: the one-row frame of a [Series], its cells as the
    [Series] held them. *)
Definition to_frame_T (index : list string) (values : Row) : DataFrame :=
  mkDataFrame index [values].

(** [df["track_id"]] *)
Definition getitem_track_id (df : DataFrame) : result (list Z) :=
  if has_column "track_id" df then Ok (map track_id (rows df))
  else Raise (KeyError "track_id").

(** [.head(n)] and the slice [[:n]]: the first [n] items, and for a negative
    [n] all but the last [-n]. *)
Definition head {A} (n : Z) (l : list A) : list A :=
  if 0 <=? n then firstn (Z.to_nat n) l
  else firstn (List.length l - Z.to_nat (- n)) l.

(** ** Sorting *)

(** The value of a row in a numeric column. *)
Definition column_value (c : string) (r : Row) : Q :=
  if String.eqb c "score" then score r
  else if String.eqb c "rank" then inject_Z (rank r)
  else if String.eqb c "listen_count" then inject_Z (listen_count r)
  else if String.eqb c "track_id" then inject_Z (track_id r)
  else 0%Q.

(** One sort key: a column and its [ascending] flag. *)
Definition cmp_key (key : string * bool) (a b : Row) : comparison :=
  let c := Qcompare (column_value (fst key) a) (column_value (fst key) b) in
  if snd key then c else CompOpp c.

Fixpoint lex_cmp (keys : list (string * bool)) (a b : Row) : comparison :=
  match keys with
  | [] => Eq
  | key :: keys' =>
      match cmp_key key a b with
      | Eq => lex_cmp keys' a b
      | c => c
      end
  end.

(** [a] may stand before [b] in a frame sorted on [keys]. *)
Definition keys_le (keys : list (string * bool)) (a b : Row) : bool :=
  match lex_cmp keys a b with
  | Gt => false
  | _ => true
  end.

Fixpoint insert {A} (le : A -> A -> bool) (x : A) (l : list A) : list A :=
  match l with
  | [] => [x]
  | y :: t => if le x y then x :: y :: t else y :: insert le x t
  end.

(** The stable sort behind a sort on several keys ([numpy.lexsort]). *)
Fixpoint stable_sort {A} (le : A -> A -> bool) (l : list A) : list A :=
  match l with
  | [] => []
  | x :: t => insert le x (stable_sort le t)
  end.

(** [x] is in the class of [r]: each may stand before the other. *)
Definition same_class {A} (le : A -> A -> bool) (r x : A) : bool :=
  le r x && le x r.

(** numpy's sort of [kind="quicksort"], the default of [sort_values]. *)
Class Sorter : Type := {
  quicksort : forall A : Type, (A -> A -> bool) -> list A -> list A
}.

(** What numpy promises of it: the result is a rearrangement of the input,
    and it is in order whenever the comparison is a total preorder on the
    items at hand. *)
Class SorterSpec (S : Sorter) : Prop := {
  quicksort_perm :
    forall (A : Type) (le : A -> A -> bool) (l : list A),
      Permutation l (quicksort A le l);
  quicksort_sorted :
    forall (A : Type) (le : A -> A -> bool) (l : list A),
      (forall x y, In x l -> In y l -> le x y = true \/ le y x = true) ->
      (forall x y z, In x l -> In y l -> In z l ->
                     le x y = true -> le y z = true -> le x z = true) ->
      StronglySorted (fun x y => le x y = true) (quicksort A le l)
}.

(** ** Numbers of the blend *)

Class Float (F : Type) : Type := {
  f_zero : F;
  f_one : F;
  f_of_int : Z -> F;
  f_sub : F -> F -> F;
  f_mul : F -> F -> F;
  f_add : F -> F -> F;
  f_div : F -> F -> F;
  f_leb : F -> F -> bool;
  f_isnan : F -> bool
}.

(** Python's [float]: IEEE 754 binary64, rounding to nearest even. *)
#[export] Instance binary64 : Float float := {
  f_zero := 0%float;
  f_one := 1%float;
  f_of_int := float_of_int;
  f_sub := PrimFloat.sub;
  f_mul := PrimFloat.mul;
  f_add := PrimFloat.add;
  f_div := PrimFloat.div;
  f_leb := PrimFloat.leb;
  f_isnan := PrimFloat.is_nan
}.

(** ** The service object *)

Definition S3_KEYS : list (string * string) :=
  [ ("top_popular", "recsys/recommendations/top_popular.parquet");
    ("personal_als", "recsys/recommendations/personal_als.parquet");
    ("final_ranked", "recsys/recommendations/recommendations.parquet") ].

(** [d[k]] on a dict with string keys, [None] when [k not in d]. *)
Fixpoint dict_get (k : string) (d : list (string * string)) : option string :=
  match d with
  | [] => None
  | (k', v) :: d' => if String.eqb k k' then Some v else dict_get k d'
  end.

(** [self._recs]: the three slots, [None] until loaded. *)
Record Recs : Type := mkRecs {
  final_ranked : option DataFrame;
  personal_als : option DataFrame;
  top_popular : option DataFrame
}.

(** [self._stats] *)
Record Stats : Type := mkStats {
  request_personal_count : Z;
  request_default_count : Z;
  request_with_online_count : Z
}.

Record Recommendations : Type := mkRecommendations {
  _recs : Recs;
  _stats : Stats;
  _bucket : string
}.

(** [Recommendations()] *)
Definition init (bucket : string) : Recommendations :=
  mkRecommendations (mkRecs None None None) (mkStats 0 0 0) bucket.

(** [self._stats["request_personal_count"] += 1] *)
Definition incr_personal (self : Recommendations) : Recommendations :=
  let st := _stats self in
  mkRecommendations (_recs self)
    (mkStats (request_personal_count st + 1) (request_default_count st)
             (request_with_online_count st))
    (_bucket self).

(** [self._stats["request_default_count"] += 1] *)
Definition incr_default (self : Recommendations) : Recommendations :=
  let st := _stats self in
  mkRecommendations (_recs self)
    (mkStats (request_personal_count st) (request_default_count st + 1)
             (request_with_online_count st))
    (_bucket self).

(** [self._stats["request_with_online_count"] += 1] *)
Definition incr_with_online (self : Recommendations) : Recommendations :=
  let st := _stats self in
  mkRecommendations (_recs self)
    (mkStats (request_personal_count st) (request_default_count st)
             (request_with_online_count st + 1))
    (_bucket self).

(** [self._recs[rtype] = df], for the three names [load] lets through. *)
Definition set_recs (rtype : string) (df : DataFrame) (self : Recommendations)
  : Recommendations :=
  let r := _recs self in
  let r' :=
    if String.eqb rtype "final_ranked" then
      mkRecs (Some df) (personal_als r) (top_popular r)
    else if String.eqb rtype "personal_als" then
      mkRecs (final_ranked r) (Some df) (top_popular r)
    else if String.eqb rtype "top_popular" then
      mkRecs (final_ranked r) (personal_als r) (Some df)
    else r in
  mkRecommendations r' (_stats self) (_bucket self).

(** ** Loading *)

(** The object store as the service sees it: what each bucket and key
    holds, already decoded (a frame with the index its file gives it: the
    one saved with it, or else the positions), and the [get_object] requests
    made so far. *)
Record S3 : Type := mkS3 {
  objects : string -> string -> option DataFrame;
  requests : list (string * string)
}.

Definition read_parquet_s3 (bucket key : string) : M S3 DataFrame :=
  fun s3 =>
    let s3' := mkS3 (objects s3) (requests s3 ++ [(bucket, key)]) in
    match objects s3 bucket key with
    | Some df => (Ok df, s3')
    | None => (Raise (ClientError "NoSuchKey"), s3')
    end.

(** Runs a computation on the store inside one on the store and the
    service. *)
Definition on_store {A} (m : M S3 A) : M (S3 * Recommendations) A :=
  fun st => let '(r, s3') := m (fst st) in (r, (s3', snd st)).

Definition load (rtype : string) : M (S3 * Recommendations) unit :=
  match dict_get rtype S3_KEYS with
  | None =>
      raise (ValueError
               "rtype must be in ['top_popular', 'personal_als', 'final_ranked']")
  | Some key =>
      st <- get ;;
      df <- on_store (read_parquet_s3 (_bucket (snd st)) key) ;;
      let df :=
        if (String.eqb rtype "final_ranked" || String.eqb rtype "personal_als")
           && has_column "user_id" df
        then set_index_user_id df else df in
      modify (fun st => (fst st, set_recs rtype df (snd st)))
  end.

(** ** Ordering and resolution *)

Section Engine.

Context {np : Sorter}.

(** [df.sort_values(by, ascending=...)]: one key goes to numpy's default
    sort, several keys go to the stable [lexsort]. *)
Definition sort_values (by_ : list string) (ascending : list bool)
    (df : DataFrame) : DataFrame :=
  let keys := combine by_ ascending in
  match keys with
  | [] => df
  | [_] => with_rows df (quicksort Row (keys_le keys) (rows df))
  | _ => with_rows df (stable_sort (keys_le keys) (rows df))
  end.

Definition _order_personal (df : DataFrame) : DataFrame :=
  if has_column "score" df && has_column "rank" df then
    sort_values ["score"; "rank"] [false; true] df
  else if has_column "score" df then
    sort_values ["score"] [false] df
  else if has_column "rank" df then
    sort_values ["rank"] [true] df
  else df.

Definition _order_top (df : DataFrame) : DataFrame :=
  if has_column "listen_count" df && has_column "rank" df then
    sort_values ["listen_count"; "rank"] [false; true] df
  else if has_column "listen_count" df then
    sort_values ["listen_count"] [false] df
  else if has_column "rank" df then
    sort_values ["rank"] [true] df
  else df.

(** The body of the [try] of the first two tiers of [get_offline]. *)
Definition personal_tier (df : DataFrame) (user_id k : Z)
  : M Recommendations (list Z) :=
  recs <- lift (loc df user_id) ;;
  let recs := match recs with
              | Series index values => to_frame_T index values
              | Frame recs => recs
              end in
  let recs := _order_personal recs in
  col <- lift (getitem_track_id recs) ;;
  let tracks := head k col in
  modify incr_personal ;;;
  ret tracks.

Definition get_offline (user_id k : Z) : M Recommendations (list Z) :=
  self <- get ;;
  r <- match final_ranked (_recs self) with
       | Some fr => try_except_KeyError (personal_tier fr user_id k)
       | None => ret None
       end ;;
  match r with
  | Some tracks => ret tracks
  | None =>
      self <- get ;;
      r <- match personal_als (_recs self) with
           | Some pa => try_except_KeyError (personal_tier pa user_id k)
           | None => ret None
           end ;;
      match r with
      | Some tracks => ret tracks
      | None =>
          self <- get ;;
          match top_popular (_recs self) with
          | Some tp =>
              let recs := _order_top tp in
              col <- lift (getitem_track_id recs) ;;
              let tracks := head k col in
              modify incr_default ;;;
              ret tracks
          | None => ret []
          end
      end
  end.

(** *** The blend *)

Context {F : Type} {num : Float F}.

(** A row of [cands_df]. *)
Record Cand : Type := mkCand {
  cand_track_id : Z;
  online_boost : F;
  offline_score : F;
  final_score : F
}.

(** [tid in recent_tracks] *)
Definition mem (tid : Z) (l : list Z) : bool := existsb (Z.eqb tid) l.

(** The rows of [cands_df] from index [i] on: the boost, the score of the
    position and their blend. *)
Fixpoint cands_from (i : Z) (offline recent_tracks : list Z) (alpha : F)
  : list Cand :=
  match offline with
  | [] => []
  | tid :: t =>
      let boost := if mem tid recent_tracks then f_one else f_zero in
      let off := f_div f_one (f_of_int (i + 1)) in
      let final := f_add (f_mul (f_sub f_one alpha) off) (f_mul alpha boost) in
      mkCand tid boost off final :: cands_from (i + 1) t recent_tracks alpha
  end.

(** [a] may stand before [b] when the scores fall. *)
Definition final_score_desc (a b : Cand) : bool :=
  f_leb (final_score b) (final_score a).

(** [cands_df.sort_values("final_score", ascending=False)]: the rows whose
    score is NaN are set aside, the others go to numpy's default sort, and
    the NaN rows come last, in the order of the frame. *)
Definition sort_by_final_score (cands_df : list Cand) : list Cand :=
  quicksort Cand final_score_desc
    (filter (fun c => negb (f_isnan (final_score c))) cands_df)
  ++ filter (fun c => f_isnan (final_score c)) cands_df.

(** [not recent_tracks] *)
Definition no_recent (recent_tracks : option (list Z)) : bool :=
  match recent_tracks with
  | None | Some [] => true
  | Some (_ :: _) => false
  end.

Definition get_with_online (user_id k : Z) (recent_tracks : option (list Z))
    (alpha : F) : M Recommendations (list Z) :=
  offline <- get_offline user_id (k * 5) ;;
  match offline with
  | [] => ret []
  | _ :: _ =>
      match recent_tracks with
      | None | Some [] => ret (head k offline)
      | Some recent =>
          modify incr_with_online ;;;
          let cands_df := cands_from 0 offline recent alpha in
          let cands_df := sort_by_final_score cands_df in
          ret (head k (map cand_track_id cands_df))
      end
  end.

End Engine.

Arguments Cand F : clear implicits.

(** A sort that keeps numpy's promise, to run the model on. *)
Definition insertion_sorter : Sorter :=
  {| quicksort := fun A le l => stable_sort le l |}.

(** ** Vocabulary of the statements *)

Definition map_result {A B} (f : A -> B) (r : result A) : result B :=
  match r with
  | Ok a => Ok (f a)
  | Raise e => Raise e
  end.

(** Rows that agree on every column of [cols]. *)
Definition eq_on (cols : list string) (r x : Row) : bool :=
  forallb (fun c => Qeq_bool (column_value c r) (column_value c x)) cols.

(** The personal ordering rule, as a relation between a row and a later one:
    [score] descending and then [rank] ascending, on the columns the frame
    has. *)
Definition personal_before (df : DataFrame) (a b : Row) : Prop :=
  match has_column "score" df, has_column "rank" df with
  | true, true =>
      (score b < score a)%Q \/ ((score a == score b)%Q /\ rank a <= rank b)
  | true, false => (score b <= score a)%Q
  | false, true => rank a <= rank b
  | false, false => True
  end.

(** The popularity ordering rule: [listen_count] descending and then [rank]
    ascending. *)
Definition popular_before (df : DataFrame) (a b : Row) : Prop :=
  match has_column "listen_count" df, has_column "rank" df with
  | true, true =>
      listen_count b < listen_count a \/
      (listen_count a = listen_count b /\ rank a <= rank b)
  | true, false => listen_count b <= listen_count a
  | false, true => rank a <= rank b
  | false, false => True
  end.

(** The frame a personal tier works on: what [loc] found for the user, a
    [Series] made a one-row frame again. *)
Definition user_frame (df : DataFrame) (user_id : Z) : result DataFrame :=
  match loc df user_id with
  | Ok (Series index values) => Ok (to_frame_T index values)
  | Ok (Frame recs) => Ok recs
  | Raise e => Raise e
  end.

(** Its rows: the rows of the user, in table order; a single row of a table
    with a float column has its integer cells as float64. *)
Definition user_rows (df : DataFrame) (user_id : Z) : list Row :=
  match user_frame df user_id with
  | Ok recs => rows recs
  | Raise _ => []
  end.

(** The rows relabelled [i], [i + 1], ... *)
Fixpoint range_index_from (i : Z) (rs : list Row) : list Row :=
  match rs with
  | [] => []
  | r :: t => set_idx i r :: range_index_from (i + 1) t
  end.

(** A frame that was saved with the default [RangeIndex]: a row is labelled
    by its position. *)
Definition default_index (df : DataFrame) : Prop :=
  map idx (rows df) = map Z.of_nat (seq 0 (List.length (rows df))).

(** The same from the rows found under the label: one row comes as a
    [Series], several as they are. *)
Definition handed_over (df : DataFrame) (found : list Row) : list Row :=
  match found with
  | [r] => [as_series df r]
  | _ => found
  end.

(** The service with other counters. *)
Definition with_stats (self : Recommendations) (st : Stats) : Recommendations :=
  mkRecommendations (_recs self) st (_bucket self).

Section Resolution.

Context {np : Sorter}.

(** The track column a personal tier offers to a user, if it answers. *)
Definition tier_tracks (slot : option DataFrame) (user_id : Z)
  : option (list Z) :=
  match slot with
  | None => None
  | Some df =>
      match user_frame df user_id with
      | Raise _ => None
      | Ok recs =>
          match getitem_track_id (_order_personal recs) with
          | Ok col => Some col
          | Raise _ => None
          end
      end
  end.

(** What a resolution finds before it truncates, and the state it leaves. *)
Definition resolve (self : Recommendations) (user_id : Z)
  : result (list Z) * Recommendations :=
  match tier_tracks (final_ranked (_recs self)) user_id with
  | Some col => (Ok col, incr_personal self)
  | None =>
      match tier_tracks (personal_als (_recs self)) user_id with
      | Some col => (Ok col, incr_personal self)
      | None =>
          match top_popular (_recs self) with
          | Some tp =>
              match getitem_track_id (_order_top tp) with
              | Ok col => (Ok col, incr_default self)
              | Raise e => (Raise e, self)
              end
          | None => (Ok [], self)
          end
      end
  end.

(** The blend is reached: the oversampled candidate list and the recent
    tracks are both non-empty. *)
Definition blend_reached (self : Recommendations) (user_id k : Z)
    (recent_tracks : option (list Z)) : bool :=
  match fst (get_offline user_id (k * 5) self) with
  | Ok (_ :: _) => negb (no_recent recent_tracks)
  | _ => false
  end.

End Resolution.


(** ** Tables of the scenarios *)

Definition personal_columns : list string := ["track_id"; "score"; "rank"].

Definition popular_columns : list string := ["track_id"; "rank"; "listen_count"].

Definition personal_row (user track : Z) (s : Q) (r : Z) : Row :=
  mkRow user user track s r 0.

Definition popular_row (i track r n : Z) : Row :=
  mkRow i 0 track 0%Q r n.

(** Scenario A: user 42 with two rows in [final_ranked]. *)
Definition fr_A : DataFrame :=
  mkDataFrame personal_columns
    [ personal_row 42 5 (9 # 10) 1; personal_row 42 7 (5 # 10) 2 ].

Definition self_A : Recommendations :=
  mkRecommendations (mkRecs (Some fr_A) None None) (mkStats 0 0 0) "bucket".

(** Scenario B: only [top_popular] is loaded. *)
Definition tp_B : DataFrame :=
  mkDataFrame popular_columns
    [ popular_row 0 1 1 1000; popular_row 1 2 2 500 ].

Definition self_B : Recommendations :=
  mkRecommendations (mkRecs None None (Some tp_B)) (mkStats 0 0 0) "bucket".

(** Scenario C: the offline list of user 42 is [5, 7, 9, 11, 13]. *)
Definition fr_C : DataFrame :=
  mkDataFrame personal_columns
    [ personal_row 42 5 (9 # 10) 1; personal_row 42 7 (8 # 10) 2;
      personal_row 42 9 (7 # 10) 3; personal_row 42 11 (6 # 10) 4;
      personal_row 42 13 (5 # 10) 5 ].

Definition self_C : Recommendations :=
  mkRecommendations (mkRecs (Some fr_C) None None) (mkStats 0 0 0) "bucket".

(** The blend weight of the service, [0.3] as a binary64 number. *)
Definition alpha_default : float := 0x1.3333333333333p-2%float.

(** An empty object store. *)
Definition s3_empty : S3 := mkS3 (fun _ _ => None) [].

(** ** Checks that decide a sort on a given list *)

Definition total_onb {A} (le : A -> A -> bool) (l : list A) : bool :=
  forallb (fun x => forallb (fun y => le x y || le y x) l) l.

Definition trans_onb {A} (le : A -> A -> bool) (l : list A) : bool :=
  forallb (fun x =>
    forallb (fun y =>
      forallb (fun z => implb (le x y && le y z) (le x z)) l) l) l.

(** No item may stand before an earlier one. *)
Fixpoint strictly_sortedb {A} (le : A -> A -> bool) (l : list A) : bool :=
  match l with
  | [] => true
  | x :: t => forallb (fun y => negb (le y x)) t && strictly_sortedb le t
  end.

(** ** The order of binary64 *)

(** The place of a number that is not NaN in the order of binary64: the
    class (infinite, negative, zero, positive), then exponent and mantissa. *)
Definition SF_key (x : spec_float) : Z * Z * Z :=
  match x with
  | S754_zero _ => (0, 0, 0)
  | S754_infinity s => (if s then -2 else 2, 0, 0)
  | S754_nan => (0, 0, 0)
  | S754_finite s m e => if s then (-1, - e, - Z.pos m) else (1, e, Z.pos m)
  end.

(** The lexicographic comparison of two places, and its strict order. *)
Definition key_compare (a b : Z * Z * Z) : comparison :=
  let '(a1, a2, a3) := a in
  let '(b1, b2, b3) := b in
  match a1 ?= b1 with
  | Eq => match a2 ?= b2 with
          | Eq => a3 ?= b3
          | c => c
          end
  | c => c
  end.

Definition key_lt (a b : Z * Z * Z) : Prop :=
  let '(a1, a2, a3) := a in
  let '(b1, b2, b3) := b in
  a1 < b1 \/ (a1 = b1 /\ (a2 < b2 \/ (a2 = b2 /\ a3 < b3))).

(** In a frame sorted on [final_score], descending: [a] may stand before
    [b]. *)
Definition score_before (a b : Cand float) : Prop :=
  is_nan (final_score b) = true \/
  PrimFloat.leb (final_score b) (final_score a) = true.

(** ** The blended score by position *)

(** The value the blend gives to the candidate at index [j] whose boost is
    [boost]. *)
Definition blend_score {F} {num : Float F} (alpha : F) (j : Z) (boost : F) : F :=
  f_add (f_mul (f_sub f_one alpha) (f_div f_one (f_of_int (j + 1))))
        (f_mul alpha boost).

(** The same value with the position in a machine integer, for tables. *)
Definition score_at (alpha boost : float) (i : int) : float :=
  ((1 - alpha) * (1 / of_uint63 (i + 1)%uint63) + alpha * boost)%float.

(** One more position checked: the candidate at [i + 1] with boost [bn]
    scores strictly less than the one at [i] with boost [bh]. *)
Definition falls_step (alpha bn bh : float) (st : int * bool) : int * bool :=
  let '(i, ok) := st in
  ((i + 1)%uint63,
   ok && PrimFloat.ltb (score_at alpha bn (i + 1)%uint63) (score_at alpha bh i)).

(** The check over the positions [0 .. n - 1]. *)
Definition falls (alpha bn bh : float) (n : positive) : bool :=
  snd (Pos.iter (falls_step alpha bn bh) (0%uint63, true) n).

(** The number of positions the tables below cover. *)
Definition table_size : positive := 1000000.

(** ** More tables *)

(** Rows of user 42 where tracks 1 and 3 agree on [score] and [rank]. *)
Definition fr_ties : DataFrame :=
  mkDataFrame personal_columns
    [ personal_row 42 1 (5 # 10) 1; personal_row 42 2 (9 # 10) 1;
      personal_row 42 3 (5 # 10) 1 ].

(** Four rows of user 42, best first: the offline list is [1, 2, 3, 4]. *)
Definition fr_four : DataFrame :=
  mkDataFrame personal_columns
    [ personal_row 42 1 (9 # 10) 1; personal_row 42 2 (8 # 10) 2;
      personal_row 42 3 (7 # 10) 3; personal_row 42 4 (6 # 10) 4 ].

Definition self_four : Recommendations :=
  mkRecommendations (mkRecs (Some fr_four) None None) (mkStats 0 0 0) "bucket".

(** A personal table without a [rank] column: the scores rise along the
    table, tracks 1 and 2 tied and tracks 3 and 4 tied. *)
Definition fr_score_only : DataFrame :=
  mkDataFrame ["track_id"; "score"]
    [ personal_row 42 1 (5 # 10) 0; personal_row 42 2 (5 # 10) 0;
      personal_row 42 3 (9 # 10) 0; personal_row 42 4 (9 # 10) 0 ].

(** User 7 has one row, whose track id needs 54 bits; user 8 has two rows
    with such ids. *)
Definition fr_wide : DataFrame :=
  mkDataFrame personal_columns
    [ personal_row 7 9007199254740993 (9 # 10) 1;
      personal_row 8 9007199254740993 (9 # 10) 1;
      personal_row 8 9007199254740995 (8 # 10) 2 ].

Definition self_wide : Recommendations :=
  mkRecommendations (mkRecs (Some fr_wide) None None) (mkStats 0 0 0) "bucket".

(** ** Environment, client and construction *)

(** The process environment after [load_dotenv()]. *)
Definition Env : Type := string -> option string.

(** [not os.getenv(n)]: the variable is absent or empty. *)
Definition unset (env : Env) (n : string) : bool :=
  match env n with
  | None => true
  | Some v => String.eqb v ""
  end.

Definition _require_env (env : Env) (names : list string) : result unit :=
  match filter (unset env) names with
  | [] => Ok tt
  | missing =>
      Raise (ValueError ("Не заданы переменные окружения: "
                         ++ String.concat ", " missing))
  end.

(** What [boto3.client] is given. *)
Record S3Client : Type := mkS3Client {
  aws_access_key_id : option string;
  aws_secret_access_key : option string;
  endpoint_url : string
}.

Definition make_s3_client (env : Env) : result S3Client :=
  match _require_env env
          ["AWS_ACCESS_KEY_ID"; "AWS_SECRET_ACCESS_KEY"; "student_s3_bucket"] with
  | Raise e => Raise e
  | Ok _ =>
      Ok (mkS3Client (env "AWS_ACCESS_KEY_ID") (env "AWS_SECRET_ACCESS_KEY")
                     "https://storage.yandexcloud.net")
  end.

(** [Recommendations.__init__]: the client is made first, so a missing
    variable leaves no object behind.  The store the client talks to is the
    [S3] that [load] is run on. *)
Definition __init__ (env : Env) : result Recommendations :=
  match make_s3_client env with
  | Raise e => Raise e
  | Ok _ =>
      Ok (init (match env "student_s3_bucket" with
                | Some b => b
                | None => ""
                end))
  end.

(** ** The application *)

(** [RecommendRequest] and [RecommendResponse] of [api_app.py]. *)
Record RecommendRequest : Type := mkRequest {
  req_user_id : Z;
  req_k : Z;
  req_recent_tracks : option (list Z)
}.

Record RecommendResponse : Type := mkResponse {
  resp_user_id : Z;
  resp_tracks : list Z
}.

(** The handler of [POST /recommend]. *)
Definition recommend {np : Sorter} (req : RecommendRequest)
  : M Recommendations RecommendResponse :=
  tracks <- (if no_recent (req_recent_tracks req)
             then get_offline (req_user_id req) (req_k req)
             else get_with_online (num := binary64) (req_user_id req)
                    (req_k req) (req_recent_tracks req) alpha_default) ;;
  ret (mkResponse (req_user_id req) tracks).

(** The start-up half of [lifespan]: construct the service and load the
    three tables, in this order. *)
Definition lifespan (env : Env) : M S3 Recommendations :=
  fun s3 =>
    match __init__ env with
    | Raise e => (Raise e, s3)
    | Ok rec =>
        match (load "final_ranked" ;;; load "personal_als" ;;;
               load "top_popular") (s3, rec) with
        | (Ok _, st) => (Ok (snd st), fst st)
        | (Raise e, st) => (Raise e, fst st)
        end
    end.

(** ** More vocabulary *)

(** [recs[rtype]] for the three names. *)
Definition slot (rtype : string) (r : Recs) : option DataFrame :=
  if String.eqb rtype "final_ranked" then final_ranked r
  else if String.eqb rtype "personal_als" then personal_als r
  else if String.eqb rtype "top_popular" then top_popular r
  else None.

(** The frame [load] stores for what it read. *)
Definition stored (rtype : string) (raw : DataFrame) : DataFrame :=
  if (String.eqb rtype "final_ranked" || String.eqb rtype "personal_als")
     && has_column "user_id" raw
  then set_index_user_id raw else raw.

(** The store after one more [get_object]. *)
Definition requested (s3 : S3) (bucket key : string) : S3 :=
  mkS3 (objects s3) (requests s3 ++ [(bucket, key)]).

(** No personal tier answers the user: the slot is empty, or has no row of
    the user, or has no [track_id] column. *)
Definition tier_silent (slot : option DataFrame) (user_id : Z) : bool :=
  match slot with
  | None => true
  | Some df =>
      negb (existsb (fun r => idx r =? user_id) (rows df))
      || negb (has_column "track_id" df)
  end.

(** The sum of the three counters. *)
Definition total_requests (self : Recommendations) : Z :=
  request_personal_count (_stats self) + request_default_count (_stats self)
  + request_with_online_count (_stats self).

(** ** A store and an environment to run on *)

Definition raw_columns : list string := ["user_id"; "track_id"; "score"; "rank"].

(** The three files, each with the default index. *)
Definition raw_final : DataFrame :=
  mkDataFrame raw_columns
    [ mkRow 0 7 8 1%Q 1 0; mkRow 1 42 7 (5 # 10) 2 0;
      mkRow 2 42 5 (9 # 10) 1 0 ].

Definition raw_als : DataFrame :=
  mkDataFrame raw_columns
    [ mkRow 0 42 6 (4 # 10) 1 0; mkRow 1 43 9 (3 # 10) 1 0 ].

Definition raw_top : DataFrame :=
  mkDataFrame popular_columns
    [ mkRow 0 0 2 0%Q 2 500; mkRow 1 0 1 0%Q 1 1000; mkRow 2 0 3 0%Q 3 100 ].

Definition store_demo : S3 :=
  mkS3 (fun bucket key =>
          if negb (String.eqb bucket "bucket") then None
          else if String.eqb key "recsys/recommendations/recommendations.parquet"
          then Some raw_final
          else if String.eqb key "recsys/recommendations/personal_als.parquet"
          then Some raw_als
          else if String.eqb key "recsys/recommendations/top_popular.parquet"
          then Some raw_top
          else None)
       [].

(** The same bucket without the popular table. *)
Definition store_no_top : S3 :=
  mkS3 (fun bucket key =>
          if String.eqb key "recsys/recommendations/top_popular.parquet"
          then None else objects store_demo bucket key)
       [].

Definition env_demo : Env :=
  fun n =>
    if String.eqb n "AWS_ACCESS_KEY_ID" then Some "id"
    else if String.eqb n "AWS_SECRET_ACCESS_KEY" then Some "secret"
    else if String.eqb n "student_s3_bucket" then Some "bucket"
    else None.

(** A [final_ranked] table that lost its [track_id] column, over a loaded
    [personal_als]. *)
Definition self_no_track_id : Recommendations :=
  mkRecommendations
    (mkRecs (Some (mkDataFrame ["score"; "rank"] (rows fr_A)))
            (Some fr_C) (Some tp_B))
    (mkStats 0 0 0) "bucket".



(** ** Facts about lists and sorting *)

Section SortFacts.

Variable A : Type.
Variable le : A -> A -> bool.

Lemma insert_perm (x : A) (l : list A) : Permutation (x :: l) (insert le x l).
Proof.
  induction l as [|y t IH]; simpl.
  - apply Permutation_refl.
  - destruct (le x y).
    + apply Permutation_refl.
    + eapply perm_trans; [apply perm_swap|].
      apply perm_skip, IH.
Qed.

Lemma stable_sort_perm (l : list A) : Permutation l (stable_sort le l).
Proof.
  induction l as [|x t IH]; simpl.
  - constructor.
  - eapply perm_trans; [apply perm_skip, IH|apply insert_perm].
Qed.

Lemma In_insert (x y : A) (l : list A) :
  In y (insert le x l) -> y = x \/ In y l.
Proof.
  intro H.
  apply (Permutation_in _ (Permutation_sym (insert_perm x l))) in H.
  destruct H; auto.
Qed.

Lemma insert_sorted (x : A) (l : list A) :
  (forall y, In y l -> le x y = true \/ le y x = true) ->
  (forall a b c, In a (x :: l) -> In b (x :: l) -> In c (x :: l) ->
                 le a b = true -> le b c = true -> le a c = true) ->
  StronglySorted (fun a b => le a b = true) l ->
  StronglySorted (fun a b => le a b = true) (insert le x l).
Proof.
  intros Htot Htr Hs.
  induction Hs as [|y t Hs IH Hall]; simpl.
  - repeat constructor.
  - destruct (le x y) eqn:Exy.
    + constructor.
      * constructor; assumption.
      * constructor; [assumption|].
        rewrite Forall_forall in *. intros z Hz.
        apply (Htr x y z); simpl; auto.
    + constructor.
      * apply IH.
        -- intros z Hz. apply Htot. now right.
        -- intros a b c Ha Hb Hc. apply Htr; simpl in *; tauto.
      * rewrite Forall_forall in *. intros z Hz.
        apply In_insert in Hz. destruct Hz as [->|Hz].
        -- destruct (Htot y) as [H|H]; [now left|congruence|exact H].
        -- now apply Hall.
Qed.

Lemma stable_sort_sorted (l : list A) :
  (forall x y, In x l -> In y l -> le x y = true \/ le y x = true) ->
  (forall x y z, In x l -> In y l -> In z l ->
                 le x y = true -> le y z = true -> le x z = true) ->
  StronglySorted (fun x y => le x y = true) (stable_sort le l).
Proof.
  induction l as [|x t IH]; intros Htot Htr; simpl.
  - constructor.
  - assert (Hin : forall y, In y (stable_sort le t) -> In y t).
    { intros y. apply Permutation_in, Permutation_sym, stable_sort_perm. }
    apply insert_sorted.
    + intros y Hy. apply Htot; simpl; auto.
    + intros a b c Ha Hb Hc. apply Htr; simpl in *.
      * destruct Ha; auto.
      * destruct Hb; auto.
      * destruct Hc; auto.
    + apply IH.
      * intros a b Ha Hb. apply Htot; simpl; auto.
      * intros a b c Ha Hb Hc. apply Htr; simpl; auto.
Qed.

(** Stability: the items of one class of the preorder come out in the order
    they went in. *)
Hypothesis le_trans :
  forall x y z, le x y = true -> le y z = true -> le x z = true.

Lemma filter_insert (r x : A) (l : list A) :
  filter (same_class le r) (insert le x l) =
  if same_class le r x then x :: filter (same_class le r) l
  else filter (same_class le r) l.
Proof.
  induction l as [|y t IH]; simpl.
  - reflexivity.
  - destruct (le x y) eqn:Exy; simpl.
    + reflexivity.
    + rewrite IH.
      destruct (same_class le r x) eqn:Ex, (same_class le r y) eqn:Ey; try reflexivity.
      unfold same_class in Ex, Ey.
      apply andb_prop in Ex. apply andb_prop in Ey.
      destruct Ex as [_ Hxr]. destruct Ey as [Hry _].
      rewrite (le_trans _ _ _ Hxr Hry) in Exy. discriminate.
Qed.

Lemma stable_sort_stable (r : A) (l : list A) :
  filter (same_class le r) (stable_sort le l) = filter (same_class le r) l.
Proof.
  induction l as [|x t IH]; simpl.
  - reflexivity.
  - rewrite filter_insert, IH. reflexivity.
Qed.

End SortFacts.

(** A list in strictly decreasing order has one sorted rearrangement:
    itself. *)
Lemma sorted_perm_unique {A} (le : A -> A -> bool) (l l' : list A) :
  StronglySorted (fun x y => le y x = false) l ->
  StronglySorted (fun x y => le x y = true) l' ->
  Permutation l l' ->
  l' = l.
Proof.
  intros Hl. revert l'.
  induction Hl as [|a t Hs IH Hall]; intros l' Hl' Hp.
  - apply Permutation_nil in Hp. exact Hp.
  - destruct l' as [|h t'].
    + apply Permutation_sym, Permutation_nil in Hp. discriminate.
    + assert (Hh : h = a).
      { assert (Hin : In h (a :: t)).
        { apply (Permutation_in _ (Permutation_sym Hp)). now left. }
        destruct Hin as [->|Hin]; [reflexivity|].
        assert (Hin' : In a (h :: t')).
        { apply (Permutation_in _ Hp). now left. }
        destruct Hin' as [->|Hin']; [reflexivity|].
        inversion Hl' as [|? ? _ Hall']; subst.
        rewrite Forall_forall in Hall, Hall'.
        specialize (Hall _ Hin). specialize (Hall' _ Hin').
        congruence. }
      subst h. f_equal.
      apply IH.
      * now inversion Hl'.
      * now apply Permutation_cons_inv in Hp.
Qed.

Lemma StronglySorted_weaken {A} (R R' : A -> A -> Prop) (l : list A) :
  (forall a b, R a b -> R' a b) -> StronglySorted R l -> StronglySorted R' l.
Proof.
  intros HR H. induction H as [|a l Hs IH Hall]; constructor; [exact IH|].
  rewrite Forall_forall in *. auto.
Qed.

Lemma insertion_sorter_spec : SorterSpec insertion_sorter.
Proof.
  split; simpl; intros.
  - apply stable_sort_perm.
  - now apply stable_sort_sorted.
Qed.

(** Sorting the reversed list keeps numpy's promise as well. *)
Lemma sort_of_reversed_spec :
  SorterSpec {| quicksort := fun A le l => stable_sort le (rev l) |}.
Proof.
  split; simpl; intros A le l.
  - eapply perm_trans; [apply Permutation_rev|apply stable_sort_perm].
  - intros Htot Htr. apply stable_sort_sorted.
    + intros x y Hx Hy. apply Htot; now apply in_rev.
    + intros x y z Hx Hy Hz. apply Htr; now apply in_rev.
Qed.

(** *** The order of a sort on keys *)

Lemma cmp_key_refl key a : cmp_key key a a = Eq.
Proof.
  unfold cmp_key.
  assert (H : (column_value (fst key) a ?= column_value (fst key) a)%Q = Eq)
    by (apply Qeq_alt; reflexivity).
  rewrite H. now destruct (snd key).
Qed.

Lemma cmp_key_antisym key a b : cmp_key key b a = CompOpp (cmp_key key a b).
Proof.
  unfold cmp_key.
  rewrite <- (Qcompare_antisym (column_value (fst key) a)).
  destruct (snd key); [reflexivity|].
  now rewrite CompOpp_involutive.
Qed.

Lemma cmp_key_trans key a b c :
  match cmp_key key a b, cmp_key key b c with
  | Eq, x => cmp_key key a c = x
  | x, Eq => cmp_key key a c = x
  | Lt, Lt => cmp_key key a c = Lt
  | Gt, Gt => cmp_key key a c = Gt
  | _, _ => True
  end.
Proof.
  unfold cmp_key.
  destruct (Qcompare_spec (column_value (fst key) a) (column_value (fst key) b));
  destruct (Qcompare_spec (column_value (fst key) b) (column_value (fst key) c));
  destruct (Qcompare_spec (column_value (fst key) a) (column_value (fst key) c));
  destruct (snd key); simpl; trivial; exfalso; lra.
Qed.

Lemma lex_cmp_antisym keys a b : lex_cmp keys b a = CompOpp (lex_cmp keys a b).
Proof.
  induction keys as [|key keys IH]; simpl.
  - reflexivity.
  - rewrite (cmp_key_antisym key a b).
    destruct (cmp_key key a b); simpl; auto.
Qed.

Lemma lex_cmp_trans keys a b c :
  lex_cmp keys a b <> Gt -> lex_cmp keys b c <> Gt -> lex_cmp keys a c <> Gt.
Proof.
  induction keys as [|key keys IH]; simpl.
  - congruence.
  - pose proof (cmp_key_trans key a b c) as H.
    destruct (cmp_key key a b), (cmp_key key b c); rewrite ?H; auto; congruence.
Qed.

Lemma keys_le_true keys a b : keys_le keys a b = true <-> lex_cmp keys a b <> Gt.
Proof.
  unfold keys_le. destruct (lex_cmp keys a b); split; congruence.
Qed.

Lemma keys_le_total keys a b :
  keys_le keys a b = true \/ keys_le keys b a = true.
Proof.
  rewrite !keys_le_true, (lex_cmp_antisym keys a b).
  destruct (lex_cmp keys a b); simpl; [left|left|right]; congruence.
Qed.

Lemma keys_le_trans keys a b c :
  keys_le keys a b = true -> keys_le keys b c = true -> keys_le keys a c = true.
Proof.
  rewrite !keys_le_true. apply lex_cmp_trans.
Qed.

Lemma same_class_keys keys r x :
  same_class (keys_le keys) r x = true <-> lex_cmp keys r x = Eq.
Proof.
  unfold same_class. rewrite andb_true_iff, !keys_le_true.
  rewrite (lex_cmp_antisym keys r x).
  destruct (lex_cmp keys r x); simpl; split; try congruence; intuition congruence.
Qed.

(** ** Facts about the service *)

Lemma head_nil {A} (k : Z) : head k (@nil A) = [].
Proof.
  unfold head. destruct (0 <=? k); apply firstn_nil.
Qed.

Lemma head_nonneg {A} (k : Z) (l : list A) :
  0 <= k -> head k l = firstn (Z.to_nat k) l.
Proof.
  intro H. unfold head. apply Z.leb_le in H. now rewrite H.
Qed.

(** Truncating the oversampled list gives the list of the plain request. *)
Lemma head_oversampled {A} (k : Z) (l : list A) :
  0 <= k -> head k (head (k * 5) l) = head k l.
Proof.
  intro H.
  rewrite !head_nonneg by lia.
  rewrite firstn_firstn. f_equal. lia.
Qed.

Section ResolutionFacts.

Context {np : Sorter}.

(** The [try] of a personal tier returns the head of the tier's column, or
    passes. *)
Lemma try_personal_tier (df : DataFrame) (self : Recommendations)
    (user_id k : Z) :
  try_except_KeyError (personal_tier df user_id k) self =
  match tier_tracks (Some df) user_id with
  | Some col => (Ok (Some (head k col)), incr_personal self)
  | None => (Ok None, self)
  end.
Proof.
  unfold try_except_KeyError, personal_tier, tier_tracks, user_frame, bind,
    lift, modify, ret, getitem_track_id.
  destruct (loc df user_id) as [[index values|recs]|e] eqn:E; simpl.
  - destruct (has_column "track_id" _); reflexivity.
  - destruct (has_column "track_id" _); reflexivity.
  - unfold loc in E.
    destruct (filter (fun r => idx r =? user_id) (rows df)) as [|r [|r' rs]];
      [|discriminate|discriminate].
    now injection E as <-.
Qed.

(** [get_offline] is [resolve] followed by the truncation to [k]. *)
Lemma get_offline_resolve (self : Recommendations) (user_id k : Z) :
  get_offline user_id k self =
  (map_result (head k) (fst (resolve self user_id)), snd (resolve self user_id)).
Proof.
  assert (Htier : forall slot : option DataFrame,
             match slot with
             | Some df => try_except_KeyError (personal_tier df user_id k)
             | None => ret None
             end self =
             match tier_tracks slot user_id with
             | Some col => (Ok (Some (head k col)), incr_personal self)
             | None => (Ok None, self)
             end).
  { intros [df|]; [apply try_personal_tier|reflexivity]. }
  unfold get_offline, resolve, bind, get.
  rewrite Htier.
  destruct (tier_tracks (final_ranked (_recs self)) user_id); [reflexivity|].
  rewrite Htier.
  destruct (tier_tracks (personal_als (_recs self)) user_id); [reflexivity|].
  destruct (top_popular (_recs self)) as [tp|];
    [|simpl; rewrite head_nil; reflexivity].
  unfold lift, modify, ret, getitem_track_id.
  destruct (has_column "track_id" (_order_top tp)); reflexivity.
Qed.

(** A resolution leaves the tables, the bucket name and the blend counter
    alone, and the only exception it lets out is the [KeyError] of a missing
    [track_id]. *)
Lemma resolve_frame (self : Recommendations) (user_id : Z) :
  _recs (snd (resolve self user_id)) = _recs self /\
  _bucket (snd (resolve self user_id)) = _bucket self /\
  request_with_online_count (_stats (snd (resolve self user_id))) =
  request_with_online_count (_stats self) /\
  (forall e, fst (resolve self user_id) = Raise e -> e = KeyError "track_id").
Proof.
  unfold resolve.
  destruct (tier_tracks (final_ranked (_recs self)) user_id);
    [simpl; repeat split; discriminate|].
  destruct (tier_tracks (personal_als (_recs self)) user_id);
    [simpl; repeat split; discriminate|].
  destruct (top_popular (_recs self)) as [tp|];
    [|simpl; repeat split; discriminate].
  unfold getitem_track_id.
  destruct (has_column "track_id" (_order_top tp)); simpl; repeat split;
    try discriminate.
  intros e H. now inversion H.
Qed.

End ResolutionFacts.

Section BlendFacts.

Context {np : Sorter} {F : Type} {num : Float F}.

(** [get_with_online] by cases on what the oversampled resolution gave. *)
Lemma get_with_online_cases (self : Recommendations) (user_id k : Z)
    (recent_tracks : option (list Z)) (alpha : F) :
  get_with_online user_id k recent_tracks alpha self =
  match get_offline user_id (k * 5) self with
  | (Raise e, s) => (Raise e, s)
  | (Ok [], s) => (Ok [], s)
  | (Ok offline, s) =>
      match recent_tracks with
      | None | Some [] => (Ok (head k offline), s)
      | Some recent =>
          (Ok (head k (map cand_track_id
                         (sort_by_final_score
                            (cands_from 0 offline recent alpha)))),
           incr_with_online s)
      end
  end.
Proof.
  unfold get_with_online, bind.
  destruct (get_offline user_id (k * 5) self) as [[offline|e] s]; [|reflexivity].
  destruct offline as [|tid offline]; [reflexivity|].
  destruct recent_tracks as [[|t recent]|]; reflexivity.
Qed.

(** Every candidate row carries the track it was made from, in order. *)
Lemma cands_from_track_ids (i : Z) (offline recent : list Z) (alpha : F) :
  map cand_track_id (cands_from i offline recent alpha) = offline.
Proof.
  revert i. induction offline as [|tid t IH]; intro i; simpl.
  - reflexivity.
  - now rewrite IH.
Qed.

(** A candidate row sits at some position [j] of the frame and is the row
    the formulas give for that position. *)
Lemma cands_from_In (i : Z) (offline recent : list Z) (alpha : F) (c : Cand F) :
  In c (cands_from i offline recent alpha) ->
  exists j tid,
    i <= j < i + Z.of_nat (List.length offline) /\ In tid offline /\
    c = mkCand tid
          (if mem tid recent then f_one else f_zero)
          (f_div f_one (f_of_int (j + 1)))
          (blend_score alpha j (if mem tid recent then f_one else f_zero)).
Proof.
  revert i. induction offline as [|tid t IH]; intros i H; simpl in H.
  - contradiction.
  - destruct H as [<-|H].
    + exists i, tid. repeat split; [lia|simpl List.length; lia|now left].
    + destruct (IH _ H) as (j & tid' & Hj & Hin & Hc).
      exists j, tid'. repeat split;
        [lia|simpl List.length; lia|now right|exact Hc].
Qed.

Lemma filter_split_perm {A} (p : A -> bool) (l : list A) :
  Permutation l (filter (fun x => negb (p x)) l ++ filter p l).
Proof.
  induction l as [|a t IH]; simpl; [constructor|].
  destruct (p a); simpl.
  - now apply Permutation_cons_app.
  - now constructor.
Qed.

(** The sorted frame holds the rows of the frame. *)
Lemma sort_by_final_score_perm (spec : SorterSpec np) (cands : list (Cand F)) :
  Permutation cands (sort_by_final_score cands).
Proof.
  unfold sort_by_final_score.
  eapply perm_trans; [apply (filter_split_perm (fun c => f_isnan (final_score c)))|].
  apply Permutation_app_tail, quicksort_perm.
Qed.

(** With no NaN among the scores the sort is numpy's on the whole frame. *)
Lemma sort_by_final_score_no_nan (cands : list (Cand F)) :
  (forall c, In c cands -> f_isnan (final_score c) = false) ->
  sort_by_final_score cands = quicksort (Cand F) final_score_desc cands.
Proof.
  intro H. unfold sort_by_final_score.
  assert (E1 : filter (fun c => negb (f_isnan (final_score c))) cands = cands).
  { clear - H. induction cands as [|c t IH]; simpl; [reflexivity|].
    rewrite (H c) by now left. simpl. f_equal. apply IH.
    intros c' Hc'. apply H. now right. }
  assert (E2 : filter (fun c => f_isnan (final_score c)) cands = []).
  { clear - H. induction cands as [|c t IH]; simpl; [reflexivity|].
    rewrite (H c) by now left. apply IH.
    intros c' Hc'. apply H. now right. }
  now rewrite E1, E2, app_nil_r.
Qed.

End BlendFacts.

(** *** The order of binary64 *)

Lemma SFcompare_key (x y : spec_float) :
  x <> S754_nan -> y <> S754_nan ->
  SFcompare x y = Some (key_compare (SF_key x) (SF_key y)).
Proof.
  intros Hx Hy.
  destruct x as [sx|sx| |sx mx ex], y as [sy|sy| |sy my ey];
    try congruence; simpl;
    try (destruct sx; reflexivity); try (destruct sy; reflexivity);
    try (destruct sx, sy; reflexivity).
  all: destruct sx, sy; simpl; try reflexivity.
  rewrite Z.compare_opp, (Z.compare_antisym ex ey).
  destruct (ex ?= ey); reflexivity.
Qed.

Lemma key_compare_le_total a b :
  key_compare a b <> Gt \/ key_compare b a <> Gt.
Proof.
  destruct a as [[a1 a2] a3], b as [[b1 b2] b3]. unfold key_compare.
  destruct (Z.compare_spec a1 b1), (Z.compare_spec b1 a1); try lia;
    try (left; congruence); try (right; congruence).
  destruct (Z.compare_spec a2 b2), (Z.compare_spec b2 a2); try lia;
    try (left; congruence); try (right; congruence).
  destruct (Z.compare_spec a3 b3), (Z.compare_spec b3 a3); try lia;
    try (left; congruence); try (right; congruence).
Qed.

Lemma key_compare_Lt a b : key_compare a b = Lt <-> key_lt a b.
Proof.
  destruct a as [[a1 a2] a3], b as [[b1 b2] b3]. unfold key_compare, key_lt.
  destruct (Z.compare_spec a1 b1); [|split; [lia|reflexivity]|split; [discriminate|lia]].
  destruct (Z.compare_spec a2 b2); [|split; [lia|reflexivity]|split; [discriminate|lia]].
  destruct (Z.compare_spec a3 b3); split; try discriminate; try lia; reflexivity.
Qed.

Lemma key_compare_Gt a b : key_compare a b = Gt <-> key_lt b a.
Proof.
  destruct a as [[a1 a2] a3], b as [[b1 b2] b3]. unfold key_compare, key_lt.
  destruct (Z.compare_spec a1 b1); [|split; [discriminate|lia]|split; [lia|reflexivity]].
  destruct (Z.compare_spec a2 b2); [|split; [discriminate|lia]|split; [lia|reflexivity]].
  destruct (Z.compare_spec a3 b3); split; try discriminate; try lia; reflexivity.
Qed.

Lemma key_lt_trans a b c : key_lt a b -> key_lt b c -> key_lt a c.
Proof.
  destruct a as [[a1 a2] a3], b as [[b1 b2] b3], c as [[c1 c2] c3].
  unfold key_lt. lia.
Qed.

Lemma key_lt_irrefl a : ~ key_lt a a.
Proof. destruct a as [[a1 a2] a3]. unfold key_lt. lia. Qed.

Lemma key_lt_total a b : key_lt a b \/ key_lt b a \/ key_compare a b = Eq.
Proof.
  destruct (key_compare a b) eqn:E; auto.
  - left. now apply key_compare_Lt.
  - right. left. now apply key_compare_Gt.
Qed.

Lemma is_nan_false (x : float) : is_nan x = false <-> Prim2SF x <> S754_nan.
Proof.
  unfold is_nan. rewrite negb_false_iff, FloatAxioms.eqb_spec. unfold SFeqb.
  destruct (Prim2SF x) as [s|s| |s m e] eqn:E; simpl.
  - split; [discriminate|reflexivity].
  - split; [discriminate|]. destruct s; reflexivity.
  - split; [discriminate|congruence].
  - split; [discriminate|]. intros _.
    rewrite Z.compare_refl.
    change (PosDef.Pos.compare_cont Eq m m) with (Pos.compare m m).
    rewrite Pos.compare_refl. destruct s; reflexivity.
Qed.

Lemma SFcompare_nan (x y : spec_float) :
  x = S754_nan \/ y = S754_nan -> SFcompare x y = None.
Proof.
  intros [->| ->]; [reflexivity|]. now destruct x.
Qed.

Lemma SF_nan_dec (x : spec_float) : x = S754_nan \/ x <> S754_nan.
Proof.
  destruct x; [right|right|left|right]; congruence.
Qed.

Lemma leb_true (x y : float) :
  (x <=? y)%float = true <->
  is_nan x = false /\ is_nan y = false /\
  ~ key_lt (SF_key (Prim2SF y)) (SF_key (Prim2SF x)).
Proof.
  rewrite FloatAxioms.leb_spec, !is_nan_false. unfold SFleb.
  destruct (SF_nan_dec (Prim2SF x)) as [Hx|Hx].
  { rewrite SFcompare_nan by auto. split; [discriminate|tauto]. }
  destruct (SF_nan_dec (Prim2SF y)) as [Hy|Hy].
  { rewrite SFcompare_nan by auto. split; [discriminate|tauto]. }
  rewrite SFcompare_key by assumption.
  rewrite <- key_compare_Gt.
  destruct (key_compare (SF_key (Prim2SF x)) (SF_key (Prim2SF y)));
    split; try discriminate; try tauto;
    intros _; repeat split; auto; discriminate.
Qed.

Lemma ltb_true (x y : float) :
  (x <? y)%float = true <->
  is_nan x = false /\ is_nan y = false /\
  key_lt (SF_key (Prim2SF x)) (SF_key (Prim2SF y)).
Proof.
  rewrite FloatAxioms.ltb_spec, !is_nan_false. unfold SFltb.
  destruct (SF_nan_dec (Prim2SF x)) as [Hx|Hx].
  { rewrite SFcompare_nan by auto. split; [discriminate|tauto]. }
  destruct (SF_nan_dec (Prim2SF y)) as [Hy|Hy].
  { rewrite SFcompare_nan by auto. split; [discriminate|tauto]. }
  rewrite SFcompare_key by assumption.
  rewrite <- key_compare_Lt.
  destruct (key_compare (SF_key (Prim2SF x)) (SF_key (Prim2SF y)));
    split; try discriminate; try tauto;
    try (intros (_ & _ & H); discriminate).
Qed.

Lemma leb_total (x y : float) :
  is_nan x = false -> is_nan y = false ->
  (x <=? y)%float = true \/ (y <=? x)%float = true.
Proof.
  intros Hx Hy. rewrite !leb_true.
  destruct (key_lt_total (SF_key (Prim2SF x)) (SF_key (Prim2SF y))) as [H|[H|H]].
  - left. repeat split; auto. intro H'. exact (key_lt_irrefl _ (key_lt_trans _ _ _ H H')).
  - right. repeat split; auto. intro H'. exact (key_lt_irrefl _ (key_lt_trans _ _ _ H H')).
  - left. repeat split; auto. intro H'. apply key_compare_Gt in H'. congruence.
Qed.

Lemma leb_trans (x y z : float) :
  (x <=? y)%float = true -> (y <=? z)%float = true -> (x <=? z)%float = true.
Proof.
  rewrite !leb_true. intros (Hx & Hy & H1) (_ & Hz & H2).
  repeat split; auto. intro H.
  destruct (key_lt_total (SF_key (Prim2SF y)) (SF_key (Prim2SF x))) as [H'|[H'|H']].
  - auto.
  - apply H2. exact (key_lt_trans _ _ _ H H').
  - apply H2. 
    destruct (SF_key (Prim2SF x)) as [[a1 a2] a3], (SF_key (Prim2SF y)) as [[b1 b2] b3],
             (SF_key (Prim2SF z)) as [[c1 c2] c3].
    unfold key_compare in H'. unfold key_lt in *.
    destruct (Z.compare_spec b1 a1); try discriminate.
    destruct (Z.compare_spec b2 a2); try discriminate.
    destruct (Z.compare_spec b3 a3); try discriminate. lia.
Qed.

Lemma ltb_trans (x y z : float) :
  (x <? y)%float = true -> (y <? z)%float = true -> (x <? z)%float = true.
Proof.
  rewrite !ltb_true. intros (Hx & Hy & H1) (_ & Hz & H2).
  repeat split; auto. exact (key_lt_trans _ _ _ H1 H2).
Qed.

Lemma ltb_leb_trans (x y z : float) :
  (x <? y)%float = true -> (y <=? z)%float = true -> (x <? z)%float = true.
Proof.
  rewrite !ltb_true, leb_true. intros (Hx & Hy & H1) (_ & Hz & H2).
  repeat split; auto.
  destruct (key_lt_total (SF_key (Prim2SF y)) (SF_key (Prim2SF z))) as [H'|[H'|H']].
  - exact (key_lt_trans _ _ _ H1 H').
  - contradiction.
  - destruct (SF_key (Prim2SF x)) as [[a1 a2] a3], (SF_key (Prim2SF y)) as [[b1 b2] b3],
             (SF_key (Prim2SF z)) as [[c1 c2] c3].
    unfold key_compare in H'. unfold key_lt in *.
    destruct (Z.compare_spec b1 c1); try discriminate.
    destruct (Z.compare_spec b2 c2); try discriminate.
    destruct (Z.compare_spec b3 c3); try discriminate. lia.
Qed.

Lemma ltb_not_leb (x y : float) :
  (x <? y)%float = true -> (y <=? x)%float = false.
Proof.
  rewrite ltb_true. intros (Hx & Hy & H).
  destruct (y <=? x)%float eqn:E; [|reflexivity].
  apply leb_true in E. destruct E as (_ & _ & E). contradiction.
Qed.

Lemma ltb_leb (x y : float) :
  (x <? y)%float = true -> (x <=? y)%float = true.
Proof.
  rewrite ltb_true, leb_true. intros (Hx & Hy & H). repeat split; auto.
  intro H'. exact (key_lt_irrefl _ (key_lt_trans _ _ _ H H')).
Qed.

Lemma leb_refl (x : float) : is_nan x = false -> (x <=? x)%float = true.
Proof.
  intro H. apply leb_true. repeat split; auto. apply key_lt_irrefl.
Qed.

(** *** The sorted candidates *)

Lemma StronglySorted_app {A} (R : A -> A -> Prop) (l1 l2 : list A) :
  StronglySorted R l1 -> StronglySorted R l2 ->
  (forall a b, In a l1 -> In b l2 -> R a b) ->
  StronglySorted R (l1 ++ l2).
Proof.
  intros H1 H2 H. induction H1 as [|a t Hs IH Hall]; simpl; [exact H2|].
  constructor.
  - apply IH. intros x y Hx Hy. apply H; [now right|exact Hy].
  - apply Forall_app. split; [exact Hall|].
    apply Forall_forall. intros b Hb. apply H; [now left|exact Hb].
Qed.

Lemma final_score_desc_total (x y : Cand float) :
  is_nan (final_score x) = false -> is_nan (final_score y) = false ->
  final_score_desc x y = true \/ final_score_desc y x = true.
Proof.
  intros Hx Hy. unfold final_score_desc. simpl.
  destruct (leb_total (final_score x) (final_score y) Hx Hy); auto.
Qed.

Lemma final_score_desc_trans (x y z : Cand float) :
  final_score_desc x y = true -> final_score_desc y z = true ->
  final_score_desc x z = true.
Proof.
  unfold final_score_desc. simpl. intros H1 H2.
  exact (leb_trans _ _ _ H2 H1).
Qed.

(** The sorted candidates of a blend: a rearrangement of the candidates with
    the scores in non-increasing order and the NaN scores last. *)
Lemma blend_sorted {np : Sorter} (spec : SorterSpec np)
    (cands : list (Cand float)) :
  Permutation cands (sort_by_final_score (num := binary64) cands) /\
  StronglySorted score_before (sort_by_final_score (num := binary64) cands).
Proof.
  split; [now apply sort_by_final_score_perm|].
  unfold sort_by_final_score.
  set (good := filter (fun c => negb (f_isnan (final_score c))) cands).
  set (bad := filter (fun c => f_isnan (final_score c)) cands).
  assert (Hgood : forall c, In c good -> is_nan (final_score c) = false).
  { intros c Hc. apply filter_In in Hc. destruct Hc as [_ Hc].
    now apply negb_true_iff in Hc. }
  assert (Hbad : forall c, In c bad -> is_nan (final_score c) = true).
  { intros c Hc. apply filter_In in Hc. now destruct Hc. }
  apply StronglySorted_app.
  - eapply StronglySorted_weaken.
    + intros a b H. right. exact H.
    + apply quicksort_sorted.
      * intros x y Hx Hy. apply final_score_desc_total; now apply Hgood.
      * intros x y z _ _ _. apply final_score_desc_trans.
  - clear Hgood. induction bad as [|c t IH]; constructor.
    + apply IH. intros c' Hc'. apply Hbad. now right.
    + apply Forall_forall. intros b Hb. left. apply Hbad. now right.
  - intros a b _ Hb. left. now apply Hbad.
Qed.

(** Candidates whose scores fall strictly along the frame, none of them
    NaN, come out of the sort as they went in. *)
Lemma sort_keeps_falling {np : Sorter} (spec : SorterSpec np)
    (cands : list (Cand float)) :
  (forall c, In c cands -> is_nan (final_score c) = false) ->
  StronglySorted (fun x y => PrimFloat.ltb (final_score y) (final_score x) = true)
                 cands ->
  sort_by_final_score (num := binary64) cands = cands.
Proof.
  intros Hnan Hs.
  rewrite sort_by_final_score_no_nan by exact Hnan.
  apply sorted_perm_unique with (le := final_score_desc).
  - eapply StronglySorted_weaken; [|exact Hs].
    intros x y H. unfold final_score_desc. simpl. now apply ltb_not_leb.
  - apply quicksort_sorted.
    + intros x y Hx Hy. apply final_score_desc_total; now apply Hnan.
    + intros x y z _ _ _. apply final_score_desc_trans.
  - apply quicksort_perm.
Qed.

(** *** The two orderings *)

Lemma StronglySorted_True {A} (l : list A) :
  StronglySorted (fun _ _ => True) l.
Proof.
  induction l; constructor; [assumption|].
  apply Forall_forall. trivial.
Qed.

Lemma Qcompare_inject_Z (x y : Z) : (inject_Z x ?= inject_Z y)%Q = (x ?= y).
Proof.
  unfold Qcompare. simpl. now rewrite !Z.mul_1_r.
Qed.

Lemma keys_le_score_rank (a b : Row) :
  keys_le [("score", false); ("rank", true)] a b = true ->
  (score b < score a)%Q \/ ((score a == score b)%Q /\ rank a <= rank b).
Proof.
  unfold keys_le, lex_cmp, cmp_key, column_value; simpl.
  rewrite Qcompare_inject_Z.
  destruct (Qcompare_spec (score a) (score b)) as [H|H|H]; simpl;
    [|discriminate|now left].
  destruct (Z.compare_spec (rank a) (rank b)); try discriminate;
    intros _; right; split; auto; lia.
Qed.

Lemma keys_le_score (a b : Row) :
  keys_le [("score", false)] a b = true -> (score b <= score a)%Q.
Proof.
  unfold keys_le, lex_cmp, cmp_key, column_value; simpl.
  destruct (Qcompare_spec (score a) (score b)) as [H|H|H]; simpl;
    try discriminate; intros _; lra.
Qed.

Lemma keys_le_rank (a b : Row) :
  keys_le [("rank", true)] a b = true -> rank a <= rank b.
Proof.
  unfold keys_le, lex_cmp, cmp_key, column_value; simpl.
  rewrite Qcompare_inject_Z.
  destruct (Z.compare_spec (rank a) (rank b)); try discriminate; intros _; lia.
Qed.

Lemma keys_le_listen_rank (a b : Row) :
  keys_le [("listen_count", false); ("rank", true)] a b = true ->
  listen_count b < listen_count a \/
  (listen_count a = listen_count b /\ rank a <= rank b).
Proof.
  unfold keys_le, lex_cmp, cmp_key, column_value; simpl.
  rewrite !Qcompare_inject_Z.
  destruct (Z.compare_spec (listen_count a) (listen_count b)) as [H|H|H]; simpl;
    [|discriminate|left; lia].
  destruct (Z.compare_spec (rank a) (rank b)); try discriminate;
    intros _; right; split; auto; lia.
Qed.

Lemma keys_le_listen (a b : Row) :
  keys_le [("listen_count", false)] a b = true ->
  listen_count b <= listen_count a.
Proof.
  unfold keys_le, lex_cmp, cmp_key, column_value; simpl.
  rewrite Qcompare_inject_Z.
  destruct (Z.compare_spec (listen_count a) (listen_count b)); simpl;
    try discriminate; intros _; lia.
Qed.

(** Two rows are in one class of a sort on [keys] exactly when they agree on
    the key columns. *)
Lemma same_class_eq_on (keys : list (string * bool)) (r x : Row) :
  same_class (keys_le keys) r x = eq_on (map fst keys) r x.
Proof.
  apply eq_true_iff_eq. rewrite same_class_keys.
  unfold eq_on. induction keys as [|key keys IH]; simpl.
  - tauto.
  - rewrite andb_true_iff, <- IH, Qeq_bool_iff.
    unfold cmp_key.
    destruct (Qcompare_spec (column_value (fst key) r)
                            (column_value (fst key) x)) as [H|H|H];
      destruct (snd key); simpl; split; try discriminate; try tauto;
      intros [H' _]; lra.
Qed.

Section OrderingFacts.

Context {np : Sorter} (spec : SorterSpec np).

Lemma sort_single_key (key : string * bool) (rs : list Row) :
  Permutation rs (quicksort Row (keys_le [key]) rs) /\
  StronglySorted (fun a b => keys_le [key] a b = true)
                 (quicksort Row (keys_le [key]) rs).
Proof.
  split.
  - apply quicksort_perm.
  - apply quicksort_sorted.
    + intros x y _ _. apply keys_le_total.
    + intros x y z _ _ _. apply keys_le_trans.
Qed.

Lemma sort_several_keys (keys : list (string * bool)) (rs : list Row) :
  Permutation rs (stable_sort (keys_le keys) rs) /\
  StronglySorted (fun a b => keys_le keys a b = true)
                 (stable_sort (keys_le keys) rs).
Proof.
  split.
  - apply stable_sort_perm.
  - apply stable_sort_sorted.
    + intros x y _ _. apply keys_le_total.
    + intros x y z _ _ _. apply keys_le_trans.
Qed.

(** [_order_personal] rearranges the rows into the personal order and keeps
    the columns. *)
Lemma order_personal_sorted (df : DataFrame) :
  columns (_order_personal df) = columns df /\
  Permutation (rows df) (rows (_order_personal df)) /\
  StronglySorted (personal_before df) (rows (_order_personal df)).
Proof.
  unfold _order_personal, personal_before.
  destruct (has_column "score" df), (has_column "rank" df); simpl.
  - destruct (sort_several_keys [("score", false); ("rank", true)] (rows df))
      as [Hp Hs].
    repeat split; [exact Hp|].
    eapply StronglySorted_weaken; [|exact Hs]. apply keys_le_score_rank.
  - destruct (sort_single_key ("score", false) (rows df)) as [Hp Hs].
    repeat split; [exact Hp|].
    eapply StronglySorted_weaken; [|exact Hs]. apply keys_le_score.
  - destruct (sort_single_key ("rank", true) (rows df)) as [Hp Hs].
    repeat split; [exact Hp|].
    eapply StronglySorted_weaken; [|exact Hs]. apply keys_le_rank.
  - repeat split; [apply Permutation_refl|apply StronglySorted_True].
Qed.

Lemma order_top_sorted (df : DataFrame) :
  columns (_order_top df) = columns df /\
  Permutation (rows df) (rows (_order_top df)) /\
  StronglySorted (popular_before df) (rows (_order_top df)).
Proof.
  unfold _order_top, popular_before.
  destruct (has_column "listen_count" df), (has_column "rank" df); simpl.
  - destruct (sort_several_keys [("listen_count", false); ("rank", true)]
                                (rows df)) as [Hp Hs].
    repeat split; [exact Hp|].
    eapply StronglySorted_weaken; [|exact Hs]. apply keys_le_listen_rank.
  - destruct (sort_single_key ("listen_count", false) (rows df)) as [Hp Hs].
    repeat split; [exact Hp|].
    eapply StronglySorted_weaken; [|exact Hs]. apply keys_le_listen.
  - destruct (sort_single_key ("rank", true) (rows df)) as [Hp Hs].
    repeat split; [exact Hp|].
    eapply StronglySorted_weaken; [|exact Hs]. apply keys_le_rank.
  - repeat split; [apply Permutation_refl|apply StronglySorted_True].
Qed.

End OrderingFacts.

(** A sort on several keys keeps the rows that agree on the keys in the
    order of the table. *)
Lemma sort_several_keys_stable (keys : list (string * bool)) (rs : list Row)
    (r : Row) :
  filter (eq_on (map fst keys) r) (stable_sort (keys_le keys) rs) =
  filter (eq_on (map fst keys) r) rs.
Proof.
  rewrite <- !(filter_ext _ _ (same_class_eq_on keys r)).
  apply stable_sort_stable. apply keys_le_trans.
Qed.

(** *** Sorts without ties *)

Lemma strictly_sortedb_sound {A} (le : A -> A -> bool) (l : list A) :
  strictly_sortedb le l = true ->
  StronglySorted (fun x y => le y x = false) l.
Proof.
  induction l as [|x t IH]; simpl; intro H.
  - constructor.
  - apply andb_prop in H. destruct H as [Hx Ht].
    constructor; [now apply IH|].
    rewrite forallb_forall in Hx. apply Forall_forall.
    intros y Hy. apply Hx in Hy. now apply negb_true_iff.
Qed.

(** When the checks pass, no two items of [l] tie and every sort that keeps
    numpy's promise returns the same list. *)
Lemma quicksort_decided {np : Sorter} (spec : SorterSpec np) {A}
    (le : A -> A -> bool) (l : list A) :
  total_onb le l = true ->
  trans_onb le l = true ->
  strictly_sortedb le (stable_sort le l) = true ->
  quicksort A le l = stable_sort le l.
Proof.
  unfold total_onb, trans_onb. intros Htot Htr Hs.
  apply sorted_perm_unique with (le := le).
  - now apply strictly_sortedb_sound.
  - apply quicksort_sorted.
    + intros x y Hx Hy.
      rewrite forallb_forall in Htot. specialize (Htot x Hx).
      rewrite forallb_forall in Htot. specialize (Htot y Hy).
      now apply orb_prop.
    + intros x y z Hx Hy Hz Hxy Hyz.
      rewrite forallb_forall in Htr. specialize (Htr x Hx).
      rewrite forallb_forall in Htr. specialize (Htr y Hy).
      rewrite forallb_forall in Htr. specialize (Htr z Hz).
      rewrite Hxy, Hyz in Htr. exact Htr.
  - eapply perm_trans; [|apply quicksort_perm].
    apply Permutation_sym, stable_sort_perm.
Qed.

(** *** The blend in binary64, by table *)

Lemma float_of_int_uint63 (i : int) :
  float_of_int (Uint63.to_Z i) = of_uint63 i.
Proof.
  unfold float_of_int.
  rewrite <- (FloatAxioms.SF2Prim_Prim2SF (of_uint63 i)).
  now rewrite FloatAxioms.of_uint63_spec.
Qed.

Lemma of_Z_succ (j : Z) :
  0 <= j < 2 ^ 62 ->
  Uint63.to_Z (Uint63.of_Z j + 1)%uint63 = j + 1.
Proof.
  intro Hj.
  assert (Hw : Uint63.wB = 2 ^ 63) by reflexivity.
  rewrite Uint63.add_spec, Uint63.of_Z_spec, Uint63.to_Z_1, Hw.
  rewrite (Z.mod_small j) by lia. apply Z.mod_small. lia.
Qed.

(** The score in the table is the score of the blend. *)
Lemma score_at_blend_score (alpha boost : float) (j : Z) :
  0 <= j < 2 ^ 62 ->
  score_at alpha boost (Uint63.of_Z j) = blend_score (num := binary64) alpha j boost.
Proof.
  intro Hj. unfold score_at, blend_score. simpl.
  now rewrite <- float_of_int_uint63, of_Z_succ.
Qed.

Lemma of_Z_succ_of_Z (j : Z) :
  0 <= j < 2 ^ 62 ->
  (Uint63.of_Z j + 1)%uint63 = Uint63.of_Z (j + 1).
Proof.
  intro Hj. apply Uint63.to_Z_inj. rewrite of_Z_succ by exact Hj.
  assert (Hw : Uint63.wB = 2 ^ 63) by reflexivity.
  rewrite Uint63.of_Z_spec, Hw, Z.mod_small by lia. reflexivity.
Qed.

Lemma falls_iter (alpha bn bh : float) (n : nat) :
  Z.of_nat n < 2 ^ 62 ->
  fst (Nat.iter n (falls_step alpha bn bh) (0%uint63, true))
  = Uint63.of_Z (Z.of_nat n) /\
  (snd (Nat.iter n (falls_step alpha bn bh) (0%uint63, true)) = true ->
   forall j, 0 <= j < Z.of_nat n ->
     PrimFloat.ltb (blend_score (num := binary64) alpha (j + 1) bn)
                   (blend_score (num := binary64) alpha j bh) = true).
Proof.
  induction n as [|n IH]; intro Hn.
  - split; [reflexivity|]. intros _ j Hj. simpl in Hj. lia.
  - rewrite Nat.iter_succ, Nat2Z.inj_succ in *. unfold Z.succ in *.
    destruct IH as [Hi Hok]; [lia|].
    destruct (Nat.iter n (falls_step alpha bn bh) (0%uint63, true)) as [i ok].
    cbn [fst snd] in Hi, Hok. subst i. cbn [falls_step fst snd].
    assert (Hb : 0 <= Z.of_nat n < 2 ^ 62) by lia.
    split; [now apply of_Z_succ_of_Z|].
    intro H. apply andb_prop in H. destruct H as [H1 H2].
    intros j Hj. destruct (Z.eq_dec j (Z.of_nat n)) as [->|Hne].
    + rewrite <- (score_at_blend_score alpha bh) by exact Hb.
      rewrite <- (score_at_blend_score alpha bn) by lia.
      now rewrite <- of_Z_succ_of_Z.
    + apply Hok; [exact H1|lia].
Qed.

(** A table that passes says what it checked. *)
Lemma falls_sound (alpha bn bh : float) (n : positive) :
  falls alpha bn bh n = true ->
  Z.pos n < 2 ^ 62 ->
  forall j, 0 <= j < Z.pos n ->
    PrimFloat.ltb (blend_score (num := binary64) alpha (j + 1) bn)
                  (blend_score (num := binary64) alpha j bh) = true.
Proof.
  unfold falls. rewrite Pos2Nat.inj_iter. intros H Hn j Hj.
  destruct (falls_iter alpha bn bh (Pos.to_nat n)) as [_ Hok].
  - rewrite positive_nat_Z. exact Hn.
  - apply Hok; [exact H|]. rewrite positive_nat_Z. exact Hj.
Qed.

(** From one position to the next, and so from any position to any later
    one: the later candidate has boost [bl], the earlier one [be], and the
    positions between them are walked with boost [mid]. *)
Lemma fall_chain (score : Z -> float -> float) (n : Z) (mid bl be : float) :
  (forall j, 0 <= j < n ->
     PrimFloat.ltb (score (j + 1) mid) (score j mid) = true) ->
  (forall j, 0 <= j < n ->
     PrimFloat.ltb (score (j + 1) bl) (score j mid) = true) ->
  (forall j, 0 <= j < n ->
     PrimFloat.ltb (score (j + 1) mid) (score j be) = true) ->
  (forall j, 0 <= j < n ->
     PrimFloat.ltb (score (j + 1) bl) (score j be) = true) ->
  forall i j, 0 <= i < j -> j <= n ->
    PrimFloat.ltb (score j bl) (score i be) = true.
Proof.
  intros Hmid Hin Hout Hdir.
  assert (Hchain : forall d i, 0 <= i -> i + Z.of_nat d < n ->
            PrimFloat.ltb (score (i + Z.of_nat d + 1) mid) (score i mid) = true).
  { induction d as [|d IH]; intros i Hi Hd.
    - rewrite Z.add_0_r. apply Hmid. lia.
    - apply ltb_trans with (y := score (i + Z.of_nat d + 1) mid).
      + replace (i + Z.of_nat (S d) + 1) with (i + Z.of_nat d + 1 + 1) by lia.
        apply Hmid. lia.
      + apply IH; lia. }
  intros i j Hij Hj.
  destruct (Z.eq_dec j (i + 1)) as [->|Hne]; [apply Hdir; lia|].
  apply ltb_trans with (y := score (j - 1) mid).
  - replace j with (j - 1 + 1) at 1 by lia. apply Hin. lia.
  - destruct (Z.eq_dec (j - 1) (i + 1)) as [E|Hne'].
    + rewrite E. apply Hout. lia.
    + apply ltb_trans with (y := score (i + 1) mid); [|apply Hout; lia].
      replace (j - 1) with (i + 1 + Z.of_nat (Z.to_nat (j - i - 3)) + 1) by lia.
      apply Hchain; lia.
Qed.

(** When the scores of the boosts that occur fall strictly with the
    position, over the positions [0 .. n], the sort returns the candidates
    of an offline list of at most [n] tracks as they stand. *)
Lemma falling_keeps_order {np : Sorter} (spec : SorterSpec np)
    (allowed : float -> Prop) (alpha : float) (n : Z)
    (offline recent : list Z) :
  (forall i j bi bj,
     0 <= i < j -> j <= n -> allowed bi -> allowed bj ->
     PrimFloat.ltb (blend_score (num := binary64) alpha j bj)
                   (blend_score (num := binary64) alpha i bi) = true) ->
  (forall tid, In tid offline ->
     allowed (if mem tid recent then 1%float else 0%float)) ->
  Z.of_nat (List.length offline) <= n ->
  map cand_track_id
      (sort_by_final_score (cands_from (num := binary64) 0 offline recent alpha))
  = offline.
Proof.
  intros Hlt Hboost Hn.
  assert (Hnan : forall i b, 0 <= i < n -> allowed b ->
            is_nan (blend_score (num := binary64) alpha i b) = false).
  { intros i b Hi Hb.
    specialize (Hlt i (i + 1) b b).
    apply ltb_true in Hlt; [tauto|lia|lia|exact Hb|exact Hb]. }
  rewrite sort_keeps_falling; [apply cands_from_track_ids|exact spec| |].
  - intros c Hc. apply cands_from_In in Hc.
    destruct Hc as (j & tid & Hj & Hin & ->). simpl.
    apply Hnan; [lia|now apply Hboost].
  - assert (Hgen : forall i l,
              0 <= i -> i + Z.of_nat (List.length l) <= n ->
              (forall tid, In tid l ->
                 allowed (if mem tid recent then 1%float else 0%float)) ->
              StronglySorted
                (fun x y => PrimFloat.ltb (final_score y) (final_score x) = true)
                (cands_from (num := binary64) i l recent alpha)).
    { intros i l. revert i.
      induction l as [|tid t IH]; intros i Hi Hlen Hal.
      - constructor.
      - change (cands_from (num := binary64) i (tid :: t) recent alpha)
          with (mkCand tid
                  (if mem tid recent then 1%float else 0%float)
                  (1 / f_of_int (i + 1))%float
                  (blend_score (num := binary64) alpha i
                     (if mem tid recent then 1%float else 0%float))
                :: cands_from (num := binary64) (i + 1) t recent alpha).
        simpl List.length in Hlen. constructor.
        + apply IH; [lia|lia|]. intros t' Ht'. apply Hal. now right.
        + apply Forall_forall. intros c Hc.
          apply cands_from_In in Hc.
          destruct Hc as (j & tid' & Hj & Hin & ->).
          cbn [final_score].
          apply Hlt; [lia|lia|apply Hal; now left|apply Hal; now right]. }
    apply Hgen; [lia|lia|exact Hboost].
Qed.

(** With the weight [0.0] the boost does not show in the score. *)
Lemma blend_score_zero (j : Z) (b : float) :
  b = 0%float \/ b = 1%float ->
  blend_score (num := binary64) 0%float j b
  = blend_score (num := binary64) 0%float j 0%float.
Proof.
  intros [->| ->]; reflexivity.
Qed.

(** The tables: with the weight [0.0], and with the weight of the service
    between boosted candidates, between plain ones, and from a boosted one
    to a later plain one, the scores fall strictly over a million
    positions. *)
Lemma falls_zero : falls 0%float 0%float 0%float table_size = true.
Proof.
  vm_compute. reflexivity.
Qed.

Lemma falls_default_boosted :
  falls alpha_default 1%float 1%float table_size = true.
Proof.
  vm_compute. reflexivity.
Qed.

Lemma falls_default_plain :
  falls alpha_default 0%float 0%float table_size = true.
Proof.
  vm_compute. reflexivity.
Qed.

Lemma falls_default_past_boost :
  falls alpha_default 0%float 1%float table_size = true.
Proof.
  vm_compute. reflexivity.
Qed.

Lemma table_size_small : Z.pos table_size < 2 ^ 62.
Proof.
  reflexivity.
Qed.

(** With the weight [0.0] a later candidate scores strictly less, whatever
    the boosts. *)
Lemma falling_zero (n : positive) (i j : Z) (bi bj : float) :
  falls 0%float 0%float 0%float n = true ->
  Z.pos n < 2 ^ 62 ->
  0 <= i < j -> j <= Z.pos n ->
  bi = 0%float \/ bi = 1%float -> bj = 0%float \/ bj = 1%float ->
  PrimFloat.ltb (blend_score (num := binary64) 0%float j bj)
                (blend_score (num := binary64) 0%float i bi) = true.
Proof.
  intros Hf Hn Hij Hj Hbi Hbj.
  rewrite (blend_score_zero j bj Hbj), (blend_score_zero i bi Hbi).
  pose proof (falls_sound _ _ _ _ Hf Hn) as H.
  now apply (fall_chain (blend_score (num := binary64) 0%float)
               (Z.pos n) 0%float 0%float 0%float).
Qed.

(** With the weight of the service a later candidate scores strictly less
    unless it is boosted and the earlier one is not. *)
Lemma falling_default (i j : Z) (bi bj : bool) :
  0 <= i < j -> j <= Z.pos table_size ->
  (bj = true -> bi = true) ->
  PrimFloat.ltb
    (blend_score (num := binary64) alpha_default j (if bj then 1 else 0)%float)
    (blend_score (num := binary64) alpha_default i (if bi then 1 else 0)%float)
  = true.
Proof.
  intros Hij Hj Hb.
  pose proof (falls_sound _ _ _ _ falls_default_boosted table_size_small) as H11.
  pose proof (falls_sound _ _ _ _ falls_default_plain table_size_small) as H00.
  pose proof (falls_sound _ _ _ _ falls_default_past_boost table_size_small)
    as H01.
  destruct bj, bi; try (specialize (Hb eq_refl); discriminate).
  - now apply (fall_chain (blend_score (num := binary64) alpha_default)
                 (Z.pos table_size) 1%float 1%float 1%float).
  - now apply (fall_chain (blend_score (num := binary64) alpha_default)
                 (Z.pos table_size) 0%float 0%float 1%float).
  - now apply (fall_chain (blend_score (num := binary64) alpha_default)
                 (Z.pos table_size) 0%float 0%float 0%float).
Qed.

(** A request for [k] tracks, [0 <= 5 k <= n], oversamples to at most [n]
    candidates. *)
Lemma oversampled_length {np : Sorter} (self : Recommendations)
    (user_id k n : Z) (offline : list Z) :
  0 <= k -> k * 5 <= n ->
  fst (get_offline user_id (k * 5) self) = Ok offline ->
  Z.of_nat (List.length offline) <= n.
Proof.
  intros Hk Hn. rewrite get_offline_resolve. simpl.
  destruct (fst (resolve self user_id)) as [col|e]; simpl; [|discriminate].
  intro E. injection E as <-.
  rewrite head_nonneg by lia.
  pose proof (firstn_le_length (Z.to_nat (k * 5)) col). lia.
Qed.

(** Rounding can make scores tie that exact arithmetic keeps apart: with
    every candidate boosted and the weight one step below 1, the first two
    binary64 scores are both 1. *)
Lemma binary64_rounding_tie :
  PrimFloat.ltb 0x1.fffffffffffffp-1 1 = true /\
  map final_score
      (cands_from (num := binary64) 0 [5; 7; 9] [5; 7; 9] 0x1.fffffffffffffp-1%float)
  = [1; 1; 0x1.fffffffffffffp-1]%float.
Proof.
  vm_compute. split; reflexivity.
Qed.

(** *** The scenarios of the specification *)

(** Scenario A: user 42 is served from [final_ranked], best score first. *)
Lemma scenario_A {np : Sorter} :
  get_offline 42 2 self_A = (Ok [5; 7], incr_personal self_A) /\
  request_personal_count (_stats (incr_personal self_A)) = 1.
Proof.
  rewrite get_offline_resolve. split; reflexivity.
Qed.

(** Scenario B: an unknown user is served the head of [top_popular]. *)
Lemma scenario_B {np : Sorter} :
  get_offline 999 1 self_B = (Ok [1], incr_default self_B) /\
  request_default_count (_stats (incr_default self_B)) = 1.
Proof.
  rewrite get_offline_resolve. split; reflexivity.
Qed.

(** The stable sort on two keys at work: tracks 1 and 3 tie and keep their
    order behind track 2. *)
Lemma order_personal_ties {np : Sorter} :
  map track_id (rows (_order_personal fr_ties)) = [2; 1; 3].
Proof.
  reflexivity.
Qed.

(** ** The claims *)

(** *** Requests for no tracks *)

(** C1, as stated, fails.  In scenario A the answer to user 42 for [k = -1]
    is the track [5], not the empty list ([head] of a negative count drops
    from the end); and for [k = 0] the answer is empty but the table was
    read and the personal counter went from 0 to 1. *)
Lemma get_offline_nonpositive_k_counterexample :
  get_offline (np := insertion_sorter) 42 (-1) self_A
  = (Ok [5], incr_personal self_A) /\
  get_offline (np := insertion_sorter) 42 0 self_A
  = (Ok [], incr_personal self_A) /\
  request_personal_count (_stats self_A) = 0 /\
  request_personal_count (_stats (incr_personal self_A)) = 1.
Proof.
  repeat split.
Qed.

(** C1, amended: for [k = 0] and every user, [get_offline] returns the empty
    list (or lets out the [KeyError] of a [top_popular] table without a
    [track_id] column); the tables are consulted and the counter of the tier
    that answers is incremented exactly as for any other [k]. *)
Theorem get_offline_k_zero {np : Sorter} (self : Recommendations) (user_id : Z) :
  (fst (get_offline user_id 0 self) = Ok [] \/
   fst (get_offline user_id 0 self) = Raise (KeyError "track_id")) /\
  forall k, snd (get_offline user_id 0 self) = snd (get_offline user_id k self).
Proof.
  split.
  - rewrite get_offline_resolve. simpl.
    destruct (resolve_frame self user_id) as (_ & _ & _ & He).
    destruct (fst (resolve self user_id)) as [col|e]; simpl.
    + now left.
    + right. now rewrite (He e eq_refl).
  - intro k. now rewrite !get_offline_resolve.
Qed.

(** *** The first tier *)

(** C4, at a user with one row.  User 7 of [fr_wide] has the single row of
    track 9007199254740993.  [loc] hands a single row over as a [Series],
    whose values are float64 because of the [score] column, and
    [to_frame().T] keeps them so: the answer is the float
    9007199254740992.0, which is the track id of no row of the table.  User
    8 has two rows and gets the ids as they are.  The personal counter goes
    from 0 to 1 in both cases. *)
Theorem final_ranked_single_row_is_rounded {np : Sorter} :
  map track_id (filter (fun r => idx r =? 7) (rows fr_wide))
  = [9007199254740993] /\
  get_offline 7 10 self_wide
  = (Ok [9007199254740992], with_stats self_wide (mkStats 1 0 0)) /\
  existsb (Z.eqb 9007199254740992) (map track_id (rows fr_wide)) = false /\
  get_offline 8 10 self_wide
  = (Ok [9007199254740993; 9007199254740995],
     with_stats self_wide (mkStats 1 0 0)).
Proof.
  rewrite !get_offline_resolve. vm_compute. repeat split.
Qed.

(** *** Frame and counters *)

(** C8: neither [get_offline] nor [get_with_online] changes a loaded
    table: the state after a call has the tables (and the bucket name) of
    the state before, so that only the counters can differ. *)
Theorem tables_unchanged {np : Sorter} {F : Type} {num : Float F}
    (self : Recommendations) (user_id k : Z)
    (recent_tracks : option (list Z)) (alpha : F) :
  let after_offline := snd (get_offline user_id k self) in
  let after_online :=
    snd (get_with_online user_id k recent_tracks alpha self) in
  after_offline
  = mkRecommendations (_recs self) (_stats after_offline) (_bucket self) /\
  after_online
  = mkRecommendations (_recs self) (_stats after_online) (_bucket self).
Proof.
  assert (H : forall k',
            snd (get_offline user_id k' self)
            = mkRecommendations (_recs self)
                (_stats (snd (get_offline user_id k' self))) (_bucket self)).
  { intro k'. rewrite get_offline_resolve. simpl.
    destruct (resolve_frame self user_id) as (Hr & Hb & _).
    destruct (snd (resolve self user_id)) as [r st b]. simpl in *.
    now subst. }
  simpl. split; [apply H|].
  rewrite get_with_online_cases.
  specialize (H (k * 5)).
  destruct (get_offline user_id (k * 5) self) as [[offline|e] s]; simpl in *;
    [|exact H].
  destruct offline as [|tid offline]; [exact H|].
  destruct recent_tracks as [[|t recent]|]; simpl; try exact H.
  rewrite H. reflexivity.
Qed.

(** C9: [get_with_online] adds one to the blend counter when the oversampled
    offline list and [recent_tracks] are both non-empty, and leaves it alone
    otherwise; an empty offline list gives an empty answer, and an empty or
    missing [recent_tracks] leaves the blend counter as it was. *)
Theorem blend_counter {np : Sorter} {F : Type} {num : Float F}
    (self : Recommendations) (user_id k : Z)
    (recent_tracks : option (list Z)) (alpha : F) :
  let after := snd (get_with_online user_id k recent_tracks alpha self) in
  request_with_online_count (_stats after)
  = request_with_online_count (_stats self)
    + (if blend_reached self user_id k recent_tracks then 1 else 0) /\
  (fst (get_offline user_id (k * 5) self) = Ok [] ->
   get_with_online user_id k recent_tracks alpha self
   = (Ok [], snd (get_offline user_id (k * 5) self))) /\
  (no_recent recent_tracks = true ->
   request_with_online_count (_stats after)
   = request_with_online_count (_stats self)).
Proof.
  assert (H : request_with_online_count
                (_stats (snd (get_offline user_id (k * 5) self)))
              = request_with_online_count (_stats self)).
  { rewrite get_offline_resolve. simpl. apply resolve_frame. }
  unfold blend_reached. simpl.
  rewrite get_with_online_cases.
  destruct (get_offline user_id (k * 5) self) as [[offline|e] s]; simpl in *.
  - destruct offline as [|tid offline].
    + repeat split; simpl; lia.
    + destruct recent_tracks as [[|t recent]|]; simpl;
        (repeat split; [lia|discriminate|try discriminate; try lia]).
  - repeat split; [lia|discriminate|lia].
Qed.

(** A run of C9 on scenario C with one recent track: the blend is reached. *)
Lemma blend_counter_witness :
  let after :=
    snd (get_with_online (np := insertion_sorter) (num := binary64)
           42 1 (Some [9]) alpha_default self_C) in
  request_with_online_count (_stats after)
  = request_with_online_count (_stats self_C)
    + (if blend_reached (np := insertion_sorter) self_C 42 1 (Some [9])
       then 1 else 0) /\
  (fst (get_offline (np := insertion_sorter) 42 (1 * 5) self_C) = Ok [] ->
   get_with_online (np := insertion_sorter) (num := binary64)
     42 1 (Some [9]) alpha_default self_C
   = (Ok [], snd (get_offline (np := insertion_sorter) 42 (1 * 5) self_C))) /\
  (no_recent (Some [9]) = true ->
   request_with_online_count (_stats after)
   = request_with_online_count (_stats self_C)).
Proof.
  exact (blend_counter (np := insertion_sorter) (num := binary64)
           self_C 42 1 (Some [9]) alpha_default).
Defined.

(** C10: [load] of a name that is none of the three tables raises
    [ValueError] and leaves the store (no request was made), the tables and
    the counters as they were. *)
Theorem load_unknown_name (rtype : string) (st : S3 * Recommendations) :
  rtype <> "final_ranked" ->
  rtype <> "personal_als" ->
  rtype <> "top_popular" ->
  exists msg, load rtype st = (Raise (ValueError msg), st).
Proof.
  intros H1 H2 H3. unfold load. simpl.
  apply String.eqb_neq in H1, H2, H3.
  rewrite H3, H2, H1.
  eexists. reflexivity.
Qed.

(** A run of C10: the name ["tracks"] on a fresh service. *)
Lemma load_unknown_name_witness :
  exists msg, load "tracks" (s3_empty, init "bucket")
              = (Raise (ValueError msg), (s3_empty, init "bucket")).
Proof.
  apply (load_unknown_name "tracks" (s3_empty, init "bucket"));
    discriminate.
Defined.

(** *** The blend *)

(** The answer of a blend: the first [k] track ids of a rearrangement of the
    candidates in non-increasing order of the blended score, NaN scores
    last, each score being the one the formula gives in binary64 for the
    [alpha] that was passed. *)
Lemma get_with_online_sorted {np : Sorter} (spec : SorterSpec np)
    (self s : Recommendations) (user_id k : Z) (recent offline : list Z)
    (alpha : float) :
  get_offline user_id (k * 5) self = (Ok offline, s) ->
  offline <> [] ->
  recent <> [] ->
  exists sorted : list (Cand float),
    Permutation (cands_from (num := binary64) 0 offline recent alpha) sorted /\
    StronglySorted score_before sorted /\
    (forall c, In c sorted ->
       final_score c
       = ((1 - alpha) * offline_score c + alpha * online_boost c)%float) /\
    get_with_online (num := binary64) user_id k (Some recent) alpha self
    = (Ok (head k (map cand_track_id sorted)), incr_with_online s).
Proof.
  intros Hoff Hne Hrec.
  destruct (blend_sorted spec (cands_from (num := binary64) 0 offline recent alpha))
    as [Hp Hs].
  exists (sort_by_final_score (cands_from (num := binary64) 0 offline recent alpha)).
  split; [exact Hp|]. split; [exact Hs|]. split.
  - intros c Hc.
    apply (Permutation_in _ (Permutation_sym Hp)) in Hc.
    apply cands_from_In in Hc. destruct Hc as (j & tid & _ & _ & ->).
    reflexivity.
  - rewrite get_with_online_cases, Hoff.
    destruct offline as [|tid offline]; [contradiction|].
    destruct recent as [|t recent]; [contradiction|].
    reflexivity.
Qed.

(** The offline list of user 42 in scenario C, whatever the single-key sort:
    the table has both keys of the personal order. *)
Lemma scenario_C_offline {np : Sorter} (k : Z) :
  get_offline 42 k self_C = (Ok (head k [5; 7; 9; 11; 13]), incr_personal self_C).
Proof.
  rewrite get_offline_resolve. reflexivity.
Qed.

(** C2, as stated, fails: the code asks pandas for its default sort, which
    promises an ordered rearrangement and nothing about ties.  The offline
    list of user 42 over [fr_four] is [1, 2, 3, 4]; with weight 1 and recent
    tracks 3 and 4 the scores are 0, 0, 1, 1, so that 3 ties with 4 and 1
    with 2.  The answer [4, 3, 2, 1] is in non-increasing order of the
    score and has both tied pairs the other way round than the offline
    list.  In the same way the rows of a personal table with a [score]
    column and no [rank], tied in pairs, come out as [4, 3, 2, 1]. *)
Lemma blend_ties_counterexample :
  exists np : Sorter,
    SorterSpec np /\
    fst (get_offline (np := np) 42 (4 * 5) self_four) = Ok [1; 2; 3; 4] /\
    map final_score
        (cands_from (num := binary64) 0 [1; 2; 3; 4] [3; 4] 1%float)
    = [0; 0; 1; 1]%float /\
    fst (get_with_online (np := np) (num := binary64)
           42 4 (Some [3; 4]) 1%float self_four)
    = Ok [4; 3; 2; 1] /\
    map track_id (rows fr_score_only) = [1; 2; 3; 4] /\
    map score (rows fr_score_only) = [5 # 10; 5 # 10; 9 # 10; 9 # 10]%Q /\
    map track_id (rows (_order_personal (np := np) fr_score_only))
    = [4; 3; 2; 1].
Proof.
  exists {| quicksort := fun A le l => stable_sort le (rev l) |}.
  split; [exact sort_of_reversed_spec|].
  vm_compute. repeat split.
Qed.

(** C2, amended: the blend answers with the first [k] track ids of the
    candidates rearranged into non-increasing order of the binary64
    [final_score], NaN scores last (the order among equal scores is left to
    the sort); the personal and the popularity ordering keep the rows that
    agree on both keys in the order of the table when both key columns are
    there. *)
Theorem sorts_order_and_keep_ties {np : Sorter} (spec : SorterSpec np)
    (self s : Recommendations) (user_id k : Z) (recent offline : list Z)
    (alpha : float) (personal popular : DataFrame) (r p : Row) :
  get_offline user_id (k * 5) self = (Ok offline, s) ->
  offline <> [] ->
  recent <> [] ->
  has_column "score" personal = true ->
  has_column "listen_count" popular = true ->
  has_column "rank" personal = true ->
  has_column "rank" popular = true ->
  (exists sorted : list (Cand float),
     Permutation (cands_from (num := binary64) 0 offline recent alpha) sorted /\
     StronglySorted score_before sorted /\
     fst (get_with_online (num := binary64) user_id k (Some recent) alpha self)
     = Ok (head k (map cand_track_id sorted))) /\
  filter (eq_on ["score"; "rank"] r) (rows (_order_personal personal))
  = filter (eq_on ["score"; "rank"] r) (rows personal) /\
  filter (eq_on ["listen_count"; "rank"] p) (rows (_order_top popular))
  = filter (eq_on ["listen_count"; "rank"] p) (rows popular).
Proof.
  intros Hoff Hne Hrec Hs Hl Hr Hr'.
  split; [|split].
  - destruct (get_with_online_sorted spec self s user_id k recent offline alpha
                Hoff Hne Hrec) as (sorted & Hp & Hso & _ & E).
    exists sorted. rewrite E. auto.
  - unfold _order_personal. rewrite Hs, Hr. simpl.
    apply (sort_several_keys_stable [("score", false); ("rank", true)]).
  - unfold _order_top. rewrite Hl, Hr'. simpl.
    apply (sort_several_keys_stable [("listen_count", false); ("rank", true)]).
Qed.

(** A run of C2 amended: the blend of scenario C with weight 0.5, the
    personal table with the tied tracks 1 and 3, and the popular table of
    scenario B. *)
Lemma sorts_order_and_keep_ties_witness :
  (exists sorted : list (Cand float),
     Permutation
       (cands_from (num := binary64) 0 [5; 7; 9; 11; 13] [9] 0.5%float) sorted /\
     StronglySorted score_before sorted /\
     fst (get_with_online (np := insertion_sorter) (num := binary64)
            42 1 (Some [9]) 0.5%float self_C)
     = Ok (head 1 (map cand_track_id sorted))) /\
  filter (eq_on ["score"; "rank"] (personal_row 42 1 (5 # 10) 1))
         (rows (_order_personal (np := insertion_sorter) fr_ties))
  = filter (eq_on ["score"; "rank"] (personal_row 42 1 (5 # 10) 1))
           (rows fr_ties) /\
  filter (eq_on ["listen_count"; "rank"] (popular_row 0 1 1 1000))
         (rows (_order_top (np := insertion_sorter) tp_B))
  = filter (eq_on ["listen_count"; "rank"] (popular_row 0 1 1 1000)) (rows tp_B).
Proof.
  apply (sorts_order_and_keep_ties insertion_sorter_spec self_C
           (incr_personal self_C) 42 1 [9] [5; 7; 9; 11; 13] 0.5%float
           fr_ties tp_B (personal_row 42 1 (5 # 10) 1) (popular_row 0 1 1 1000));
    try reflexivity; discriminate.
Defined.




(** C5, as stated for every [k], fails at a negative [k].  In scenario C
    with [k = -1] the plain resolution answers with all but the last row,
    [5, 7, 9, 11]; the blend asks for [-5] tracks, gets none of the five and
    answers with the empty list. *)
Lemma blend_alpha_zero_counterexample :
  map track_id (rows fr_C) = [5; 7; 9; 11; 13] /\
  (forall np : Sorter,
     fst (get_offline (np := np) 42 (-1) self_C) = Ok [5; 7; 9; 11] /\
     fst (get_offline (np := np) 42 (-1 * 5) self_C) = Ok [] /\
     fst (get_with_online (np := np) (num := binary64)
            42 (-1) (Some [9]) 0%float self_C) = Ok []).
Proof.
  split; [reflexivity|].
  intro np. rewrite get_with_online_cases, !scenario_C_offline.
  repeat split.
Qed.

(** C5, amended: with [alpha = 0.0] and recent tracks at hand, the blend
    answers with the oversampled offline list truncated to [k], and for
    [k >= 0] this is the answer of [get_offline] for [k].  This holds for
    every list that is no longer than a table [falls 0 0 0 n] that passes,
    that is, as far as binary64 keeps the scores [1 / (i + 1)] of
    neighbouring positions apart; the table of a million positions passes,
    which covers every [0 <= k <= 200000]. *)
Theorem blend_alpha_zero {np : Sorter} (spec : SorterSpec np)
    (self : Recommendations) (user_id k : Z) (recent : list Z)
    (n : positive) :
  recent <> [] ->
  Z.pos n < 2 ^ 62 ->
  (falls 0%float 0%float 0%float n = true ->
   (forall offline, fst (get_offline user_id (k * 5) self) = Ok offline ->
      Z.of_nat (List.length offline) <= Z.pos n) ->
   fst (get_with_online (num := binary64) user_id k (Some recent) 0%float self)
   = map_result (head k) (fst (get_offline user_id (k * 5) self)) /\
   (0 <= k ->
    fst (get_with_online (num := binary64) user_id k (Some recent) 0%float self)
    = fst (get_offline user_id k self))) /\
  (0 <= k -> k * 5 <= Z.pos table_size ->
   fst (get_with_online (num := binary64) user_id k (Some recent) 0%float self)
   = fst (get_offline user_id k self)).
Proof.
  intros Hrec Hn.
  assert (Hplain : 0 <= k ->
            map_result (head k) (fst (get_offline user_id (k * 5) self))
            = fst (get_offline user_id k self)).
  { intro Hk. rewrite !get_offline_resolve. simpl.
    destruct (fst (resolve self user_id)) as [col|e]; simpl; [|reflexivity].
    now rewrite head_oversampled. }
  assert (E : forall m : positive,
              falls 0%float 0%float 0%float m = true ->
              Z.pos m < 2 ^ 62 ->
              (forall offline,
                 fst (get_offline user_id (k * 5) self) = Ok offline ->
                 Z.of_nat (List.length offline) <= Z.pos m) ->
              fst (get_with_online (num := binary64) user_id k (Some recent)
                     0%float self)
              = map_result (head k) (fst (get_offline user_id (k * 5) self))).
  { intros m Hf Hm Hlen. rewrite get_with_online_cases.
    destruct (get_offline user_id (k * 5) self) as [[offline|e] s];
      [|reflexivity].
    simpl in Hlen. specialize (Hlen offline eq_refl).
    destruct offline as [|tid offline]; [simpl; now rewrite head_nil|].
    destruct recent as [|t recent]; [contradiction|].
    cbn [fst map_result].
    rewrite (falling_keeps_order spec
               (fun b => b = 0%float \/ b = 1%float) 0%float (Z.pos m));
      [reflexivity| | |exact Hlen].
    - intros i j bi bj Hij Hj Hbi Hbj. now apply (falling_zero m).
    - intros tid' _. destruct (mem tid' (t :: recent)); auto. }
  split.
  - intros Hf Hlen. split; [now apply (E n)|].
    intro Hk. rewrite (E n) by assumption. now apply Hplain.
  - intros Hk Hm.
    rewrite (E table_size falls_zero table_size_small); [now apply Hplain|].
    intros offline. now apply oversampled_length.
Qed.

(** A run of C5 amended on scenario C, [k = 2], with a table of ten
    positions. *)
Lemma blend_alpha_zero_witness :
  (falls 0%float 0%float 0%float 10 = true ->
   (forall offline,
      fst (get_offline (np := insertion_sorter) 42 (2 * 5) self_C) = Ok offline ->
      Z.of_nat (List.length offline) <= Z.pos 10) ->
   fst (get_with_online (np := insertion_sorter) (num := binary64)
          42 2 (Some [9]) 0%float self_C)
   = map_result (head 2)
       (fst (get_offline (np := insertion_sorter) 42 (2 * 5) self_C)) /\
   (0 <= 2 ->
    fst (get_with_online (np := insertion_sorter) (num := binary64)
           42 2 (Some [9]) 0%float self_C)
    = fst (get_offline (np := insertion_sorter) 42 2 self_C))) /\
  (0 <= 2 -> 2 * 5 <= Z.pos table_size ->
   fst (get_with_online (np := insertion_sorter) (num := binary64)
          42 2 (Some [9]) 0%float self_C)
   = fst (get_offline (np := insertion_sorter) 42 2 self_C)).
Proof.
  apply (blend_alpha_zero insertion_sorter_spec self_C 42 2 [9] 10).
  - discriminate.
  - reflexivity.
Defined.




(** C7: scenario C in binary64.  The offline list is [5, 7, 9, 11, 13],
    the recent tracks are [9] and [alpha] is 0.3.  Track 9, at position 2,
    gets offline score 1/3, boost 1 and final score (1 - 0.3) * (1/3) + 0.3,
    within 1/10000 of 0.5333; track 5 gets 0.7, which is larger; and the
    top-1 answer is [5], the blend counter having gone up by one. *)
Theorem scenario_C_blend {np : Sorter} (spec : SorterSpec np)
    (self s : Recommendations) :
  get_offline 42 (1 * 5) self = (Ok [5; 7; 9; 11; 13], s) ->
  let cands :=
    cands_from (num := binary64) 0 [5; 7; 9; 11; 13] [9] alpha_default in
  let final9 := ((1 - alpha_default) * (1 / 3) + alpha_default * 1)%float in
  alpha_default = (3 / 10)%float /\
  (1 - alpha_default)%float = (7 / 10)%float /\
  nth_error cands 2 = Some (mkCand 9 1%float (1 / 3)%float final9) /\
  PrimFloat.ltb (abs (final9 * 10000 - 5333)) 1 = true /\
  nth_error cands 0 = Some (mkCand 5 0%float 1%float (7 / 10)%float) /\
  PrimFloat.ltb final9 (7 / 10) = true /\
  get_with_online (num := binary64) 42 1 (Some [9]) alpha_default self
  = (Ok [5], incr_with_online s).
Proof.
  intros Hoff cands final9.
  split; [vm_compute; reflexivity|].
  split; [vm_compute; reflexivity|].
  split; [vm_compute; reflexivity|].
  split; [vm_compute; reflexivity|].
  split; [vm_compute; reflexivity|].
  split; [vm_compute; reflexivity|].
  rewrite get_with_online_cases, Hoff. cbv iota beta.
  unfold sort_by_final_score.
  rewrite (quicksort_decided spec) by (vm_compute; reflexivity).
  vm_compute. reflexivity.
Qed.

(** A run of C7 on the table of scenario C. *)
Lemma scenario_C_blend_witness :
  let cands :=
    cands_from (num := binary64) 0 [5; 7; 9; 11; 13] [9] alpha_default in
  let final9 := ((1 - alpha_default) * (1 / 3) + alpha_default * 1)%float in
  alpha_default = (3 / 10)%float /\
  (1 - alpha_default)%float = (7 / 10)%float /\
  nth_error cands 2 = Some (mkCand 9 1%float (1 / 3)%float final9) /\
  PrimFloat.ltb (abs (final9 * 10000 - 5333)) 1 = true /\
  nth_error cands 0 = Some (mkCand 5 0%float 1%float (7 / 10)%float) /\
  PrimFloat.ltb final9 (7 / 10) = true /\
  get_with_online (np := insertion_sorter) (num := binary64)
    42 1 (Some [9]) alpha_default self_C
  = (Ok [5], incr_with_online (incr_personal self_C)).
Proof.
  apply (scenario_C_blend insertion_sorter_spec self_C (incr_personal self_C)).
  reflexivity.
Defined.

(** ** Further properties of the code *)

(** *** Environment and construction *)

Lemma unset_false (env : Env) (n : string) :
  unset env n = false <-> exists v, env n = Some v /\ v <> "".
Proof.
  unfold unset. destruct (env n) as [v|].
  - rewrite String.eqb_neq. split.
    + intro H. now exists v.
    + intros (v' & E & H). now inversion E; subst.
  - split; [discriminate|]. intros (v & E & _). discriminate.
Qed.

Lemma filter_nil_iff {A} (p : A -> bool) (l : list A) :
  filter p l = [] <-> forall x, In x l -> p x = false.
Proof.
  induction l as [|a t IH]; simpl.
  - split; [intros _ x []|reflexivity].
  - destruct (p a) eqn:E.
    + split; [discriminate|]. intro H. rewrite (H a) in E by now left.
      discriminate.
    + rewrite IH. split.
      * intros H x [<-|Hx]; auto.
      * intros H x Hx. apply H. now right.
Qed.

(** X1: [_require_env] passes exactly when every name it is given is set to
    a non-empty value; otherwise it raises [ValueError]. *)
Theorem require_env_passes_iff (env : Env) (names : list string) :
  (_require_env env names = Ok tt <->
   forall n, In n names -> exists v, env n = Some v /\ v <> "") /\
  (_require_env env names = Ok tt \/
   exists msg, _require_env env names = Raise (ValueError msg)).
Proof.
  assert (Hf : filter (unset env) names = [] <->
               forall n, In n names -> exists v, env n = Some v /\ v <> "").
  { rewrite filter_nil_iff.
    split; intros H n Hn; apply unset_false; auto. }
  unfold _require_env. split.
  - rewrite <- Hf.
    destruct (filter (unset env) names); split; congruence.
  - destruct (filter (unset env) names); [now left|right; eauto].
Qed.

(** X2: the constructor succeeds exactly when the two credentials and the
    bucket name are set and non-empty; the object it makes has no table,
    zero counters and the bucket of the environment.  With one of the three
    missing it raises [ValueError] and makes nothing. *)
Theorem init_needs_environment (env : Env) :
  ((forall n, In n ["AWS_ACCESS_KEY_ID"; "AWS_SECRET_ACCESS_KEY";
                    "student_s3_bucket"] ->
              exists v, env n = Some v /\ v <> "") ->
   exists b, env "student_s3_bucket" = Some b /\ b <> "" /\
             __init__ env
             = Ok (mkRecommendations (mkRecs None None None) (mkStats 0 0 0) b)) /\
  ((exists n, In n ["AWS_ACCESS_KEY_ID"; "AWS_SECRET_ACCESS_KEY";
                    "student_s3_bucket"] /\ unset env n = true) ->
   exists msg, __init__ env = Raise (ValueError msg)).
Proof.
  unfold __init__, make_s3_client, _require_env. split.
  - intro Hall.
    assert (E : filter (unset env)
                  ["AWS_ACCESS_KEY_ID"; "AWS_SECRET_ACCESS_KEY";
                   "student_s3_bucket"] = []).
    { apply filter_nil_iff. intros n Hn. apply unset_false. now apply Hall. }
    rewrite E.
    destruct (Hall "student_s3_bucket") as (b & Eb & Hb); [simpl; auto|].
    exists b. rewrite Eb. auto.
  - intros (n & Hn & Hu).
    destruct (filter (unset env)
                ["AWS_ACCESS_KEY_ID"; "AWS_SECRET_ACCESS_KEY";
                 "student_s3_bucket"]) as [|m ms] eqn:E.
    + rewrite (proj1 (filter_nil_iff _ _) E n Hn) in Hu. discriminate.
    + eauto.
Qed.

(** A run of X2 on an environment that has the three variables. *)
Lemma init_needs_environment_witness :
  exists b, env_demo "student_s3_bucket" = Some b /\ b <> "" /\
            __init__ env_demo
            = Ok (mkRecommendations (mkRecs None None None) (mkStats 0 0 0) b).
Proof.
  apply (proj1 (init_needs_environment env_demo)).
  intros n Hn. simpl in Hn.
  destruct Hn as [<-|[<-|[<-|[]]]]; eexists; (split; [reflexivity|discriminate]).
Defined.

(** *** Loading *)

Lemma stored_track_ids (rtype : string) (raw : DataFrame) :
  map track_id (rows (stored rtype raw)) = map track_id (rows raw).
Proof.
  unfold stored.
  destruct ((String.eqb rtype "final_ranked" || String.eqb rtype "personal_als")
            && has_column "user_id" raw); simpl.
  - now rewrite map_map.
  - reflexivity.
Qed.

Lemma dict_get_S3_KEYS (rtype key : string) :
  dict_get rtype S3_KEYS = Some key ->
  rtype = "top_popular" \/ rtype = "personal_als" \/ rtype = "final_ranked".
Proof.
  unfold S3_KEYS. simpl.
  destruct (String.eqb_spec rtype "top_popular"); [auto|].
  destruct (String.eqb_spec rtype "personal_als"); [auto|].
  destruct (String.eqb_spec rtype "final_ranked"); [auto|discriminate].
Qed.

(** One successful [load], as a state change. *)
Lemma load_ok (rtype key : string) (raw : DataFrame) (s3 : S3)
    (self : Recommendations) :
  dict_get rtype S3_KEYS = Some key ->
  objects s3 (_bucket self) key = Some raw ->
  load rtype (s3, self)
  = (Ok tt, (requested s3 (_bucket self) key,
             set_recs rtype (stored rtype raw) self)).
Proof.
  intros Hk Ho. unfold load. rewrite Hk.
  unfold bind, get, on_store, read_parquet_s3, modify. simpl.
  rewrite Ho. simpl. unfold stored, has_column. reflexivity.
Qed.

(** X3: a [load] of one of the three names whose object is in the bucket
    makes one request, for the key of that name, and puts the frame it read
    into the slot of that name, whatever was there: the other two slots, the
    counters and the bucket name stay, and the track column is the one that
    was read. *)
Theorem load_fills_one_slot (rtype key : string) (raw : DataFrame) (s3 : S3)
    (self : Recommendations) :
  dict_get rtype S3_KEYS = Some key ->
  objects s3 (_bucket self) key = Some raw ->
  exists self',
    load rtype (s3, self)
    = (Ok tt, (mkS3 (objects s3) (requests s3 ++ [(_bucket self, key)]), self')) /\
    slot rtype (_recs self') = Some (stored rtype raw) /\
    (forall other, other <> rtype ->
                   slot other (_recs self') = slot other (_recs self)) /\
    map track_id (rows (stored rtype raw)) = map track_id (rows raw) /\
    _stats self' = _stats self /\
    _bucket self' = _bucket self.
Proof.
  intros Hk Ho.
  exists (set_recs rtype (stored rtype raw) self).
  split; [now apply load_ok|].
  split; [|split; [|split; [apply stored_track_ids|split; reflexivity]]].
  - destruct (dict_get_S3_KEYS rtype key Hk) as [->|[->| ->]]; reflexivity.
  - intros other Hne. unfold slot, set_recs.
    destruct (dict_get_S3_KEYS rtype key Hk) as [->|[->| ->]]; simpl;
      apply String.eqb_neq in Hne;
      destruct (String.eqb other "final_ranked") eqn:E1;
      destruct (String.eqb other "personal_als") eqn:E2;
      destruct (String.eqb other "top_popular") eqn:E3;
      try reflexivity;
      try (apply String.eqb_eq in E1; subst; discriminate);
      try (apply String.eqb_eq in E2; subst; discriminate);
      try (apply String.eqb_eq in E3; subst; discriminate).
Qed.

(** A run of X3: the popular table into a service that already holds the
    final ranking of scenario A. *)
Lemma load_fills_one_slot_witness :
  exists self',
    load "top_popular" (store_demo, self_A)
    = (Ok tt, (mkS3 (objects store_demo)
                    (requests store_demo
                     ++ [(_bucket self_A,
                          "recsys/recommendations/top_popular.parquet")]),
               self')) /\
    slot "top_popular" (_recs self') = Some (stored "top_popular" raw_top) /\
    (forall other, other <> "top_popular" ->
                   slot other (_recs self') = slot other (_recs self_A)) /\
    map track_id (rows (stored "top_popular" raw_top))
    = map track_id (rows raw_top) /\
    _stats self' = _stats self_A /\
    _bucket self' = _bucket self_A.
Proof.
  apply (load_fills_one_slot "top_popular"
           "recsys/recommendations/top_popular.parquet" raw_top
           store_demo self_A); reflexivity.
Defined.

(** X4: a [load] of a valid name whose object is not in the bucket raises
    the client's error after the one request; tables and counters are as
    before. *)
Theorem load_missing_object (rtype key : string) (s3 : S3)
    (self : Recommendations) :
  dict_get rtype S3_KEYS = Some key ->
  objects s3 (_bucket self) key = None ->
  load rtype (s3, self)
  = (Raise (ClientError "NoSuchKey"),
     (mkS3 (objects s3) (requests s3 ++ [(_bucket self, key)]), self)).
Proof.
  intros Hk Ho. unfold load. rewrite Hk.
  unfold bind, get, on_store, read_parquet_s3. simpl.
  rewrite Ho. reflexivity.
Qed.

(** A run of X4 on the bucket without the popular table. *)
Lemma load_missing_object_witness :
  load "top_popular" (store_no_top, self_A)
  = (Raise (ClientError "NoSuchKey"),
     (mkS3 (objects store_no_top)
           (requests store_no_top
            ++ [(_bucket self_A, "recsys/recommendations/top_popular.parquet")]),
      self_A)).
Proof.
  apply (load_missing_object "top_popular"
           "recsys/recommendations/top_popular.parquet" store_no_top self_A);
    reflexivity.
Defined.

(** *** The tiers of the offline resolution *)

Lemma order_personal_columns {np : Sorter} (df : DataFrame) :
  columns (_order_personal df) = columns df.
Proof.
  unfold _order_personal.
  destruct (has_column "score" df), (has_column "rank" df); reflexivity.
Qed.

Lemma order_top_columns {np : Sorter} (df : DataFrame) :
  columns (_order_top df) = columns df.
Proof.
  unfold _order_top.
  destruct (has_column "listen_count" df), (has_column "rank" df); reflexivity.
Qed.

Lemma filter_nil_existsb {A} (p : A -> bool) (l : list A) :
  filter p l = [] <-> existsb p l = false.
Proof.
  induction l as [|a t IH]; simpl; [tauto|].
  destruct (p a); simpl; [split; discriminate|exact IH].
Qed.

(** The frame of a user has the columns of the table. *)
Lemma user_frame_columns (df recs : DataFrame) (user_id : Z) :
  user_frame df user_id = Ok recs -> columns recs = columns df.
Proof.
  unfold user_frame, loc.
  destruct (filter (fun r => idx r =? user_id) (rows df)) as [|r [|r' rs]];
    intro E; [discriminate| |]; now injection E as <-.
Qed.

(** There is one exactly when the table has a row of the user. *)
Lemma user_frame_found (df : DataFrame) (user_id : Z) :
  (exists r, In r (rows df) /\ idx r = user_id) ->
  exists recs, user_frame df user_id = Ok recs.
Proof.
  intros (r & Hin & Hr).
  assert (Hm : In r (filter (fun r => idx r =? user_id) (rows df))).
  { apply filter_In. split; [exact Hin|]. now apply Z.eqb_eq. }
  unfold user_frame, loc.
  destruct (filter (fun r => idx r =? user_id) (rows df)) as [|r0 [|r1 rs]];
    [contradiction|eauto|eauto].
Qed.

(** Its rows are the rows of the user as the table has them, unless the
    user has one row and the table a float column. *)
Lemma user_rows_handed_over (df : DataFrame) (user_id : Z) :
  user_rows df user_id
  = handed_over df (filter (fun r => idx r =? user_id) (rows df)).
Proof.
  unfold user_rows, user_frame, loc, handed_over.
  now destruct (filter (fun r => idx r =? user_id) (rows df)) as [|r [|r' rs]].
Qed.

Lemma handed_over_columns (df df' : DataFrame) (found : list Row) :
  has_column "score" df = has_column "score" df' ->
  handed_over df found = handed_over df' found.
Proof.
  intro E. unfold handed_over, as_series. now rewrite E.
Qed.

Lemma personal_before_columns (df recs : DataFrame) :
  columns recs = columns df -> personal_before recs = personal_before df.
Proof.
  intro E. unfold personal_before, has_column. now rewrite E.
Qed.

(** A personal tier passes exactly when the slot is empty, holds no row of
    the user, or has no [track_id] column. *)
Lemma tier_tracks_silent {np : Sorter} (s : option DataFrame) (user_id : Z) :
  tier_tracks s user_id = None <-> tier_silent s user_id = true.
Proof.
  unfold tier_tracks, tier_silent, getitem_track_id.
  destruct s as [df|]; [|tauto].
  rewrite orb_true_iff, !negb_true_iff, <- filter_nil_existsb.
  destruct (user_frame df user_id) as [recs|e] eqn:E.
  - unfold has_column at 1.
    rewrite order_personal_columns, (user_frame_columns _ _ _ E).
    fold (has_column "track_id" df).
    assert (Hne : filter (fun r => idx r =? user_id) (rows df) <> []).
    { unfold user_frame, loc in E. intro H. rewrite H in E. discriminate. }
    destruct (has_column "track_id" df); split; try discriminate; auto.
    intros [H|H]; [contradiction|discriminate].
  - split; [|reflexivity]. intros _. left.
    unfold user_frame, loc in E.
    destruct (filter (fun r => idx r =? user_id) (rows df)) as [|r [|r' rs]];
      [reflexivity|discriminate|discriminate].
Qed.

(** A personal tier that holds rows of the user and a [track_id] column
    offers their track ids in the personal order. *)
Lemma tier_tracks_answers {np : Sorter} (spec : SorterSpec np)
    (df : DataFrame) (user_id : Z) :
  has_column "track_id" df = true ->
  (exists r, In r (rows df) /\ idx r = user_id) ->
  exists rs : list Row,
    Permutation (user_rows df user_id) rs /\
    StronglySorted (personal_before df) rs /\
    tier_tracks (Some df) user_id = Some (map track_id rs).
Proof.
  intros Htid Hrow.
  destruct (user_frame_found df user_id Hrow) as (recs & E).
  pose proof (user_frame_columns _ _ _ E) as Hcols.
  destruct (order_personal_sorted spec recs) as (Hc & Hp & Hs).
  exists (rows (_order_personal recs)).
  split; [unfold user_rows; now rewrite E|].
  split; [now rewrite <- (personal_before_columns df recs Hcols)|].
  unfold tier_tracks. rewrite E.
  unfold getitem_track_id, has_column. rewrite Hc, Hcols.
  unfold has_column in Htid. now rewrite Htid.
Qed.

(** X22, the first tier: when [final_ranked] is loaded with a [track_id]
    column and holds rows of the user, a request for [k > 0] tracks returns
    the first [k] track ids of those rows put into the personal order, with
    the personal counter one higher and nothing else changed, whatever
    [personal_als] and [top_popular] hold.  The rows are the rows of the
    table, except that a single row of a table with a [score] column has
    gone through float64. *)
Theorem get_offline_final_ranked {np : Sorter} (spec : SorterSpec np)
    (self : Recommendations) (fr : DataFrame) (user_id k : Z) :
  final_ranked (_recs self) = Some fr ->
  has_column "track_id" fr = true ->
  (exists r, In r (rows fr) /\ idx r = user_id) ->
  0 < k ->
  exists rs : list Row,
    Permutation
      (handed_over fr (filter (fun r => idx r =? user_id) (rows fr))) rs /\
    StronglySorted (personal_before fr) rs /\
    get_offline user_id k self
    = (Ok (firstn (Z.to_nat k) (map track_id rs)),
       with_stats self
         (mkStats (request_personal_count (_stats self) + 1)
                  (request_default_count (_stats self))
                  (request_with_online_count (_stats self)))).
Proof.
  intros Hfr Htid Hrow Hk.
  destruct (tier_tracks_answers spec fr user_id Htid Hrow) as (rs & Hp & Hs & E).
  rewrite user_rows_handed_over in Hp.
  exists rs. split; [exact Hp|]. split; [exact Hs|].
  rewrite get_offline_resolve. unfold resolve.
  rewrite Hfr, E. simpl.
  now rewrite head_nonneg by lia.
Qed.

(** A run of X22 on scenario A: user 42, [k = 2]. *)
Lemma get_offline_final_ranked_witness :
  exists rs : list Row,
    Permutation
      (handed_over fr_A (filter (fun r => idx r =? 42) (rows fr_A))) rs /\
    StronglySorted (personal_before fr_A) rs /\
    get_offline (np := insertion_sorter) 42 2 self_A
    = (Ok (firstn (Z.to_nat 2) (map track_id rs)),
       with_stats self_A
         (mkStats (request_personal_count (_stats self_A) + 1)
                  (request_default_count (_stats self_A))
                  (request_with_online_count (_stats self_A)))).
Proof.
  apply (get_offline_final_ranked insertion_sorter_spec self_A fr_A 42 2).
  - reflexivity.
  - reflexivity.
  - exists (personal_row 42 5 (9 # 10) 1). split; [simpl; auto|reflexivity].
  - lia.
Defined.

(** X5: when [final_ranked] does not answer the user (not loaded, no row of
    the user, or no [track_id] column) and [personal_als] holds rows of the
    user, a request for [k > 0] tracks is served from [personal_als]: the
    first [k] track ids of the user's rows (a single row of a table with a
    [score] column having gone through float64) in the personal order, with
    the personal counter one higher and nothing else changed. *)
Theorem get_offline_personal_als {np : Sorter} (spec : SorterSpec np)
    (self : Recommendations) (pa : DataFrame) (user_id k : Z) :
  tier_silent (final_ranked (_recs self)) user_id = true ->
  personal_als (_recs self) = Some pa ->
  has_column "track_id" pa = true ->
  (exists r, In r (rows pa) /\ idx r = user_id) ->
  0 < k ->
  exists rs : list Row,
    Permutation
      (handed_over pa (filter (fun r => idx r =? user_id) (rows pa))) rs /\
    StronglySorted (personal_before pa) rs /\
    get_offline user_id k self
    = (Ok (firstn (Z.to_nat k) (map track_id rs)),
       with_stats self
         (mkStats (request_personal_count (_stats self) + 1)
                  (request_default_count (_stats self))
                  (request_with_online_count (_stats self)))).
Proof.
  intros Hfr Hpa Htid Hrow Hk.
  destruct (tier_tracks_answers spec pa user_id Htid Hrow) as (rs & Hp & Hs & E).
  rewrite user_rows_handed_over in Hp.
  exists rs. split; [exact Hp|]. split; [exact Hs|].
  rewrite get_offline_resolve. unfold resolve.
  rewrite (proj2 (tier_tracks_silent _ _) Hfr), Hpa, E. simpl.
  now rewrite head_nonneg by lia.
Qed.

(** A run of X5: user 42 has no usable [final_ranked] (the table has no
    [track_id] column) and five rows in [personal_als]. *)
Lemma get_offline_personal_als_witness :
  exists rs : list Row,
    Permutation
      (handed_over fr_C (filter (fun r => idx r =? 42) (rows fr_C))) rs /\
    StronglySorted (personal_before fr_C) rs /\
    get_offline (np := insertion_sorter) 42 3 self_no_track_id
    = (Ok (firstn (Z.to_nat 3) (map track_id rs)),
       with_stats self_no_track_id
         (mkStats (request_personal_count (_stats self_no_track_id) + 1)
                  (request_default_count (_stats self_no_track_id))
                  (request_with_online_count (_stats self_no_track_id)))).
Proof.
  apply (get_offline_personal_als insertion_sorter_spec self_no_track_id
           fr_C 42 3).
  - reflexivity.
  - reflexivity.
  - reflexivity.
  - exists (personal_row 42 5 (9 # 10) 1). split; [simpl; auto|reflexivity].
  - lia.
Defined.

(** X6: a user whom neither personal tier answers gets the head of
    [top_popular] in the popularity order: [min k n] track ids for a table
    of [n] rows, the same for every such user, with the default counter one
    higher and nothing else changed. *)
Theorem get_offline_top_popular {np : Sorter} (spec : SorterSpec np)
    (self : Recommendations) (tp : DataFrame) (user_id k : Z) :
  tier_silent (final_ranked (_recs self)) user_id = true ->
  tier_silent (personal_als (_recs self)) user_id = true ->
  top_popular (_recs self) = Some tp ->
  has_column "track_id" tp = true ->
  0 <= k ->
  exists rs : list Row,
    Permutation (rows tp) rs /\
    StronglySorted (popular_before tp) rs /\
    get_offline user_id k self
    = (Ok (firstn (Z.to_nat k) (map track_id rs)),
       with_stats self
         (mkStats (request_personal_count (_stats self))
                  (request_default_count (_stats self) + 1)
                  (request_with_online_count (_stats self)))) /\
    List.length (firstn (Z.to_nat k) (map track_id rs))
    = Nat.min (Z.to_nat k) (List.length (rows tp)) /\
    forall other,
      tier_silent (final_ranked (_recs self)) other = true ->
      tier_silent (personal_als (_recs self)) other = true ->
      fst (get_offline other k self) = fst (get_offline user_id k self).
Proof.
  intros Hfr Hpa Htp Htid Hk.
  destruct (order_top_sorted spec tp) as (Hc & Hp & Hs).
  assert (E : forall u,
            tier_silent (final_ranked (_recs self)) u = true ->
            tier_silent (personal_als (_recs self)) u = true ->
            get_offline u k self
            = (Ok (firstn (Z.to_nat k) (map track_id (rows (_order_top tp)))),
               incr_default self)).
  { intros u H1 H2. rewrite get_offline_resolve. unfold resolve.
    rewrite (proj2 (tier_tracks_silent _ _) H1),
            (proj2 (tier_tracks_silent _ _) H2), Htp.
    unfold getitem_track_id, has_column. rewrite Hc.
    unfold has_column in Htid. rewrite Htid. simpl.
    now rewrite head_nonneg by lia. }
  exists (rows (_order_top tp)).
  split; [exact Hp|]. split; [exact Hs|]. split; [now apply E|]. split.
  - rewrite length_firstn, length_map.
    now rewrite (Permutation_length Hp).
  - intros other H1 H2. now rewrite !E.
Qed.

(** A run of X6: user 999 on scenario B. *)
Lemma get_offline_top_popular_witness :
  exists rs : list Row,
    Permutation (rows tp_B) rs /\
    StronglySorted (popular_before tp_B) rs /\
    get_offline (np := insertion_sorter) 999 1 self_B
    = (Ok (firstn (Z.to_nat 1) (map track_id rs)),
       with_stats self_B
         (mkStats (request_personal_count (_stats self_B))
                  (request_default_count (_stats self_B) + 1)
                  (request_with_online_count (_stats self_B)))) /\
    List.length (firstn (Z.to_nat 1) (map track_id rs))
    = Nat.min (Z.to_nat 1) (List.length (rows tp_B)) /\
    forall other,
      tier_silent (final_ranked (_recs self_B)) other = true ->
      tier_silent (personal_als (_recs self_B)) other = true ->
      fst (get_offline (np := insertion_sorter) other 1 self_B)
      = fst (get_offline (np := insertion_sorter) 999 1 self_B).
Proof.
  apply (get_offline_top_popular insertion_sorter_spec self_B tp_B 999 1);
    try reflexivity. lia.
Defined.

(** X7: a personal table without a [track_id] column is passed over in
    silence: the [KeyError] of the column lookup is caught like the one of
    an unknown user, and the answer and the counters are those of a service
    where that table is not loaded. *)
Theorem get_offline_skips_table_without_track_id {np : Sorter}
    (self : Recommendations) (fr : DataFrame) (user_id k : Z) :
  final_ranked (_recs self) = Some fr ->
  has_column "track_id" fr = false ->
  let unloaded :=
    mkRecommendations
      (mkRecs None (personal_als (_recs self)) (top_popular (_recs self)))
      (_stats self) (_bucket self) in
  fst (get_offline user_id k self) = fst (get_offline user_id k unloaded) /\
  _stats (snd (get_offline user_id k self))
  = _stats (snd (get_offline user_id k unloaded)).
Proof.
  intros Hfr Htid unloaded.
  assert (Hs : tier_tracks (final_ranked (_recs self)) user_id = None).
  { apply tier_tracks_silent. rewrite Hfr. simpl. rewrite Htid.
    apply orb_true_r. }
  rewrite !get_offline_resolve. unfold resolve. rewrite Hs. simpl.
  destruct (tier_tracks (personal_als (_recs self)) user_id);
    [split; reflexivity|].
  destruct (top_popular (_recs self)) as [tp|]; [|split; reflexivity].
  destruct (getitem_track_id (_order_top tp)); split; reflexivity.
Qed.

(** A run of X7: user 42 is served from [personal_als] although
    [final_ranked] has rows for that user. *)
Lemma get_offline_skips_table_without_track_id_witness :
  let unloaded :=
    mkRecommendations
      (mkRecs None (personal_als (_recs self_no_track_id))
              (top_popular (_recs self_no_track_id)))
      (_stats self_no_track_id) (_bucket self_no_track_id) in
  fst (get_offline (np := insertion_sorter) 42 2 self_no_track_id)
  = fst (get_offline (np := insertion_sorter) 42 2 unloaded) /\
  _stats (snd (get_offline (np := insertion_sorter) 42 2 self_no_track_id))
  = _stats (snd (get_offline (np := insertion_sorter) 42 2 unloaded)).
Proof.
  apply (get_offline_skips_table_without_track_id self_no_track_id
           (mkDataFrame ["score"; "rank"] (rows fr_A)) 42 2); reflexivity.
Defined.

(** X8: when the resolution reaches a [top_popular] table that has no
    [track_id] column, the [KeyError] is not caught: both entry points raise
    it and leave every counter as it was. *)
Theorem top_popular_without_track_id_raises {np : Sorter} {F : Type}
    {num : Float F} (self : Recommendations) (tp : DataFrame)
    (user_id k : Z) (recent_tracks : option (list Z)) (alpha : F) :
  tier_silent (final_ranked (_recs self)) user_id = true ->
  tier_silent (personal_als (_recs self)) user_id = true ->
  top_popular (_recs self) = Some tp ->
  has_column "track_id" tp = false ->
  get_offline user_id k self = (Raise (KeyError "track_id"), self) /\
  get_with_online user_id k recent_tracks alpha self
  = (Raise (KeyError "track_id"), self).
Proof.
  intros Hfr Hpa Htp Htid.
  assert (E : forall k', get_offline user_id k' self
                         = (Raise (KeyError "track_id"), self)).
  { intro k'. rewrite get_offline_resolve. unfold resolve.
    rewrite (proj2 (tier_tracks_silent _ _) Hfr),
            (proj2 (tier_tracks_silent _ _) Hpa), Htp.
    unfold getitem_track_id, has_column. rewrite order_top_columns.
    unfold has_column in Htid. now rewrite Htid. }
  split; [apply E|].
  rewrite get_with_online_cases, E. reflexivity.
Qed.

(** A run of X8: a popular table that only has [rank] and
    [listen_count]. *)
Lemma top_popular_without_track_id_raises_witness :
  let self :=
    mkRecommendations
      (mkRecs None None
              (Some (mkDataFrame ["rank"; "listen_count"] (rows tp_B))))
      (mkStats 0 0 0) "bucket" in
  get_offline (np := insertion_sorter) 999 1 self
  = (Raise (KeyError "track_id"), self) /\
  get_with_online (np := insertion_sorter) (num := binary64)
    999 1 (Some [9]) alpha_default self
  = (Raise (KeyError "track_id"), self).
Proof.
  apply (top_popular_without_track_id_raises
           (mkRecommendations
              (mkRecs None None
                      (Some (mkDataFrame ["rank"; "listen_count"] (rows tp_B))))
              (mkStats 0 0 0) "bucket")
           (mkDataFrame ["rank"; "listen_count"] (rows tp_B)));
    reflexivity.
Defined.

(** X9: with no table loaded both entry points answer with the empty list
    and count nothing. *)
Theorem nothing_loaded_nothing_served {np : Sorter} {F : Type} {num : Float F}
    (self : Recommendations) (user_id k : Z)
    (recent_tracks : option (list Z)) (alpha : F) :
  _recs self = mkRecs None None None ->
  get_offline user_id k self = (Ok [], self) /\
  get_with_online user_id k recent_tracks alpha self = (Ok [], self).
Proof.
  intro H.
  assert (E : forall k', get_offline user_id k' self = (Ok [], self)).
  { intro k'. rewrite get_offline_resolve. unfold resolve. rewrite H. simpl.
    now rewrite head_nil. }
  split; [apply E|].
  rewrite get_with_online_cases, E. reflexivity.
Qed.

(** A run of X9 on a freshly constructed service. *)
Lemma nothing_loaded_nothing_served_witness :
  get_offline (np := insertion_sorter) 42 10 (init "bucket")
  = (Ok [], init "bucket") /\
  get_with_online (np := insertion_sorter) (num := binary64)
    42 10 (Some [9]) alpha_default (init "bucket")
  = (Ok [], init "bucket").
Proof.
  apply (nothing_loaded_nothing_served (init "bucket")). reflexivity.
Defined.

(** *** Sizes and counters *)

Lemma head_is_firstn {A} (k : Z) (l : list A) :
  exists n, head k l = firstn n l.
Proof.
  unfold head. destruct (0 <=? k); eauto.
Qed.

Lemma head_length {A} (k : Z) (l : list A) :
  0 <= k -> (List.length (head k l) <= Z.to_nat k)%nat.
Proof.
  intro H. rewrite head_nonneg by exact H. apply firstn_le_length.
Qed.

(** X10: for [k >= 0] neither entry point ever returns more than [k]
    tracks. *)
Theorem answers_have_at_most_k_tracks {np : Sorter} {F : Type} {num : Float F}
    (self : Recommendations) (user_id k : Z)
    (recent_tracks : option (list Z)) (alpha : F) :
  0 <= k ->
  (forall l, fst (get_offline user_id k self) = Ok l ->
             (List.length l <= Z.to_nat k)%nat) /\
  (forall l, fst (get_with_online user_id k recent_tracks alpha self) = Ok l ->
             (List.length l <= Z.to_nat k)%nat).
Proof.
  intro Hk. split; intros l.
  - rewrite get_offline_resolve. simpl.
    destruct (fst (resolve self user_id)) as [col|e]; simpl; [|discriminate].
    intro E. injection E as <-. now apply head_length.
  - rewrite get_with_online_cases.
    destruct (get_offline user_id (k * 5) self) as [[offline|e] s];
      [|discriminate].
    destruct offline as [|tid offline].
    + simpl. intro E. injection E as <-. simpl. lia.
    + destruct recent_tracks as [[|t recent]|]; simpl; intro E;
        injection E as <-; now apply head_length.
Qed.

(** A run of X10 on scenario C with [k = 2]. *)
Lemma answers_have_at_most_k_tracks_witness :
  (forall l, fst (get_offline (np := insertion_sorter) 42 2 self_C) = Ok l ->
             (List.length l <= Z.to_nat 2)%nat) /\
  (forall l, fst (get_with_online (np := insertion_sorter) (num := binary64)
                    42 2 (Some [9]) alpha_default self_C) = Ok l ->
             (List.length l <= Z.to_nat 2)%nat).
Proof.
  apply (answers_have_at_most_k_tracks (np := insertion_sorter)
           (num := binary64) self_C 42 2 (Some [9]) alpha_default).
  lia.
Defined.

(** X11: a call of [get_offline] counts at most one request, personal or
    default, and never touches the blend counter; a call of
    [get_with_online] lowers no counter, counts at most one tier request
    and at most two requests in all. *)
Theorem counters_per_request {np : Sorter} {F : Type} {num : Float F}
    (self : Recommendations) (user_id k : Z)
    (recent_tracks : option (list Z)) (alpha : F) :
  let a := snd (get_offline user_id k self) in
  let b := snd (get_with_online user_id k recent_tracks alpha self) in
  (a = self \/ a = incr_personal self \/ a = incr_default self) /\
  request_personal_count (_stats self) <= request_personal_count (_stats b) /\
  request_default_count (_stats self) <= request_default_count (_stats b) /\
  request_with_online_count (_stats self)
  <= request_with_online_count (_stats b) /\
  request_personal_count (_stats b) + request_default_count (_stats b)
  <= request_personal_count (_stats self)
     + request_default_count (_stats self) + 1 /\
  total_requests b <= total_requests self + 2.
Proof.
  assert (H : forall k',
            snd (get_offline user_id k' self) = self \/
            snd (get_offline user_id k' self) = incr_personal self \/
            snd (get_offline user_id k' self) = incr_default self).
  { intro k'. rewrite get_offline_resolve. simpl. unfold resolve.
    destruct (tier_tracks (final_ranked (_recs self)) user_id); [auto|].
    destruct (tier_tracks (personal_als (_recs self)) user_id); [auto|].
    destruct (top_popular (_recs self)) as [tp|]; [|auto].
    destruct (getitem_track_id (_order_top tp)); auto. }
  simpl. split; [apply H|].
  rewrite get_with_online_cases. specialize (H (k * 5)).
  unfold total_requests.
  destruct (get_offline user_id (k * 5) self) as [[offline|e] s]; simpl in *.
  - destruct offline as [|tid offline];
      [|destruct recent_tracks as [[|t recent]|]];
      destruct H as [->|[->| ->]]; simpl; lia.
  - destruct H as [->|[->| ->]]; simpl; lia.
Qed.

(** *** What the blend does to the candidates *)

(** X12: the blend only reorders and truncates: the tracks it returns,
    together with some rest, are a rearrangement of the oversampled offline
    list; and when that list has no more than [k] tracks the answer is a
    rearrangement of all of it. *)
Theorem blend_reorders_candidates {np : Sorter} (spec : SorterSpec np)
    {F : Type} {num : Float F} (self : Recommendations) (user_id k : Z)
    (recent_tracks : option (list Z)) (alpha : F) (offline l : list Z) :
  fst (get_offline user_id (k * 5) self) = Ok offline ->
  fst (get_with_online user_id k recent_tracks alpha self) = Ok l ->
  (exists rest, Permutation (l ++ rest) offline) /\
  ((List.length offline <= Z.to_nat k)%nat -> 0 <= k -> Permutation l offline).
Proof.
  rewrite get_with_online_cases.
  destruct (get_offline user_id (k * 5) self) as [[offline'|e] s];
    cbn [fst]; [|discriminate].
  intro E. injection E as ->.
  assert (Hq : forall off rec : list Z,
            Permutation
              (map cand_track_id
                 (sort_by_final_score (cands_from 0 off rec alpha))) off).
  { intros off rec.
    eapply perm_trans;
      [apply Permutation_map, Permutation_sym, sort_by_final_score_perm,
         spec|].
    rewrite cands_from_track_ids. apply Permutation_refl. }
  assert (Hgen : forall ids : list Z,
            Permutation ids offline ->
            (exists rest, Permutation (head k ids ++ rest) offline) /\
            ((List.length offline <= Z.to_nat k)%nat -> 0 <= k ->
             Permutation (head k ids) offline)).
  { intros ids Hp. split.
    - destruct (head_is_firstn k ids) as (n & ->).
      exists (skipn n ids). now rewrite firstn_skipn.
    - intros Hlen Hk. rewrite head_nonneg by exact Hk.
      rewrite firstn_all2; [exact Hp|].
      now rewrite (Permutation_length Hp). }
  destruct offline as [|tid offline].
  - intro E. injection E as <-. split.
    + exists []. constructor.
    + intros _ _. constructor.
  - destruct recent_tracks as [[|t recent]|]; intro E; injection E as <-.
    + apply Hgen. apply Permutation_refl.
    + apply Hgen. exact (Hq (tid :: offline) (t :: recent)).
    + apply Hgen. apply Permutation_refl.
Qed.

(** A run of X12 on scenario C: the two tracks returned and the three left
    out make up the offline list. *)
Lemma blend_reorders_candidates_witness :
  (exists rest, Permutation ([5; 9] ++ rest) [5; 7; 9; 11; 13]) /\
  ((List.length [5; 7; 9; 11; 13] <= Z.to_nat 2)%nat -> 0 <= 2 ->
   Permutation [5; 9] [5; 7; 9; 11; 13]).
Proof.
  apply (blend_reorders_candidates insertion_sorter_spec (num := binary64)
           self_C 42 2 (Some [9]) alpha_default [5; 7; 9; 11; 13] [5; 9]).
  - reflexivity.
  - vm_compute. reflexivity.
Defined.

(** X13: without recent tracks (the argument absent or empty) and with
    [k >= 0], [get_with_online] is [get_offline]: the same answer and the
    same counters, although it resolves for [5 k] tracks and cuts. *)
Theorem no_recent_tracks_is_offline {np : Sorter} {F : Type} {num : Float F}
    (self : Recommendations) (user_id k : Z)
    (recent_tracks : option (list Z)) (alpha : F) :
  no_recent recent_tracks = true ->
  0 <= k ->
  get_with_online user_id k recent_tracks alpha self
  = get_offline user_id k self.
Proof.
  intros Hrec Hk.
  rewrite get_with_online_cases, !get_offline_resolve. simpl.
  destruct (fst (resolve self user_id)) as [col|e]; simpl; [|reflexivity].
  rewrite <- (head_oversampled k col Hk).
  destruct (head (k * 5) col) as [|tid offline]; [now rewrite head_nil|].
  destruct recent_tracks as [[|t recent]|]; try reflexivity.
  discriminate.
Qed.

(** A run of X13 on scenario C with an empty list of recent tracks. *)
Lemma no_recent_tracks_is_offline_witness :
  get_with_online (np := insertion_sorter) (num := binary64)
    42 2 (Some []) alpha_default self_C
  = get_offline (np := insertion_sorter) 42 2 self_C.
Proof.
  apply (no_recent_tracks_is_offline (np := insertion_sorter) (num := binary64)
           self_C 42 2 (Some []) alpha_default); [reflexivity|lia].
Defined.

(** *** The order the blend gives *)

Lemma cands_from_nth {F : Type} {num : Float F} (i : Z) (offline recent : list Z)
    (alpha : F) (n : nat) (tid : Z) :
  nth_error offline n = Some tid ->
  nth_error (cands_from i offline recent alpha) n
  = Some (mkCand tid
            (if mem tid recent then f_one else f_zero)
            (f_div f_one (f_of_int (i + Z.of_nat n + 1)))
            (blend_score alpha (i + Z.of_nat n)
               (if mem tid recent then f_one else f_zero))).
Proof.
  revert i n. induction offline as [|t rest IH]; intros i n H.
  - destruct n; discriminate.
  - destruct n as [|n]; simpl in H.
    + injection H as ->. simpl. unfold blend_score.
      now rewrite Z.add_0_r.
    + simpl. rewrite (IH (i + 1) n H).
      replace (i + 1 + Z.of_nat n) with (i + Z.of_nat (S n)) by lia.
      reflexivity.
Qed.

(** In a frame sorted on the score, a candidate with a strictly larger
    score stands before one with a smaller score. *)
Lemma sorted_precedes (l : list (Cand float)) (x y : Cand float) :
  StronglySorted score_before l ->
  In x l -> In y l ->
  PrimFloat.ltb (final_score y) (final_score x) = true ->
  exists l1 l2 l3, l = l1 ++ x :: l2 ++ y :: l3.
Proof.
  intros Hs Hx Hy Hlt.
  assert (Hno : forall a, In a l -> score_before y a ->
                          final_score a = final_score x -> False).
  { intros a _ [H|H] E; rewrite E in H.
    - apply ltb_true in Hlt. destruct Hlt as (_ & Hn & _). congruence.
    - rewrite (ltb_not_leb _ _ Hlt) in H. discriminate. }
  induction Hs as [|a t Hs IH Hall].
  - contradiction.
  - rewrite Forall_forall in Hall.
    destruct Hx as [->|Hx].
    + destruct Hy as [->|Hy].
      * apply ltb_true in Hlt. destruct Hlt as (_ & _ & Hlt).
        now apply key_lt_irrefl in Hlt.
      * apply in_split in Hy. destruct Hy as (l2 & l3 & ->).
        now exists [], l2, l3.
    + destruct Hy as [->|Hy].
      * exfalso. apply (Hno x); [now right|now apply Hall|reflexivity].
      * destruct IH as (l1 & l2 & l3 & ->); [exact Hx|exact Hy| |].
        -- intros b Hb. apply Hno. now right.
        -- now exists (a :: l1), l2, l3.
Qed.

Lemma firstn_reaches {A} (n : nat) (p q : list A) (x : A) :
  NoDup (p ++ x :: q) ->
  In x (firstn n (p ++ x :: q)) ->
  firstn n (p ++ x :: q) = p ++ x :: firstn (n - List.length p - 1) q.
Proof.
  intros Hnd Hin.
  apply NoDup_remove_2 in Hnd.
  rewrite firstn_app in *.
  destruct (Nat.le_gt_cases n (List.length p)) as [Hle|Hgt].
  - exfalso. replace (n - List.length p)%nat with 0%nat in Hin by lia.
    simpl in Hin. rewrite app_nil_r in Hin.
    apply Hnd. apply in_or_app. left.
    clear - Hin. revert n Hin. induction p as [|a p IH]; intros n Hin.
    + now rewrite firstn_nil in Hin.
    + destruct n; simpl in Hin; [contradiction|].
      destruct Hin as [->|Hin]; [now left|right; eauto].
  - rewrite firstn_all2 by lia. f_equal.
    destruct (n - List.length p)%nat as [|m] eqn:E; [lia|].
    simpl. f_equal. f_equal. lia.
Qed.

(** X14: with the weight 0.3 of the service, in binary64, the blend lets a track
    overtake an offline-earlier track only if the later one is among the
    recent tracks and the earlier one is not.  So, for an offline list
    without repeats and of at most a million tracks: if [ti] stands before
    [tj] offline and [tj] being recent implies [ti] being recent, then
    wherever the answer holds [tj] it holds [ti] before it. *)
Theorem blend_keeps_earlier_track_ahead {np : Sorter} (spec : SorterSpec np)
    (self s : Recommendations) (user_id k : Z) (recent offline : list Z)
    (i j : nat) (ti tj : Z) (l : list Z) :
  get_offline user_id (k * 5) self = (Ok offline, s) ->
  NoDup offline ->
  recent <> [] ->
  Z.of_nat (List.length offline) <= Z.pos table_size ->
  nth_error offline i = Some ti ->
  nth_error offline j = Some tj ->
  (i < j)%nat ->
  (mem tj recent = true -> mem ti recent = true) ->
  fst (get_with_online (num := binary64) user_id k (Some recent)
         alpha_default self)
  = Ok l ->
  In tj l ->
  exists a b c, l = a ++ ti :: b ++ tj :: c.
Proof.
  intros Hoff Hnd Hrec Hlen Hi Hj Hij Hb Hl Hin.
  assert (Hne : offline <> []) by (intro E; subst; destruct i; discriminate).
  destruct (get_with_online_sorted spec self s user_id k recent offline
              alpha_default Hoff Hne Hrec) as (sorted & Hp & Hs & _ & E).
  rewrite E in Hl. simpl in Hl. injection Hl as <-.
  pose proof (cands_from_nth (num := binary64) 0 offline recent alpha_default
                i ti Hi) as Hci.
  pose proof (cands_from_nth (num := binary64) 0 offline recent alpha_default
                j tj Hj) as Hcj.
  assert (Hjb : (j < List.length offline)%nat).
  { apply nth_error_Some. rewrite Hj. discriminate. }
  apply nth_error_In in Hci, Hcj.
  apply (Permutation_in _ Hp) in Hci, Hcj.
  destruct (sorted_precedes sorted _ _ Hs Hci Hcj)
    as (l1 & l2 & l3 & Esorted).
  { cbn [final_score f_one f_zero binary64].
    apply (falling_default (0 + Z.of_nat i) (0 + Z.of_nat j)
             (mem ti recent) (mem tj recent)); [lia|lia|exact Hb]. }
  assert (Hids : map cand_track_id sorted
                 = (map cand_track_id l1 ++ ti :: map cand_track_id l2)
                   ++ tj :: map cand_track_id l3).
  { rewrite Esorted, !map_app. simpl. rewrite map_app. simpl.
    now rewrite <- app_assoc. }
  assert (Hnd' : NoDup (map cand_track_id sorted)).
  { apply (Permutation_NoDup (l := offline)); [|exact Hnd].
    rewrite <- (cands_from_track_ids (num := binary64) 0 offline recent
                  alpha_default) at 1.
    now apply Permutation_map. }
  destruct (head_is_firstn k (map cand_track_id sorted)) as (n & En).
  rewrite En in *. rewrite Hids in *.
  rewrite (firstn_reaches n _ _ tj Hnd' Hin).
  rewrite <- app_assoc. simpl. eauto.
Qed.

(** A run of X14 on scenario C with recent track 9: track 5 stays ahead of
    track 7, the recent track between them. *)
Lemma blend_keeps_earlier_track_ahead_witness :
  exists a b c, [5; 9; 7] = a ++ 5 :: b ++ 7 :: c.
Proof.
  apply (blend_keeps_earlier_track_ahead insertion_sorter_spec self_C
           (incr_personal self_C) 42 3 [9] [5; 7; 9; 11; 13]
           0 1 5 7 [5; 9; 7]).
  - reflexivity.
  - repeat constructor; simpl; intuition discriminate.
  - discriminate.
  - unfold table_size. simpl. lia.
  - reflexivity.
  - reflexivity.
  - lia.
  - discriminate.
  - vm_compute. reflexivity.
  - simpl. auto.
Defined.

(** *** From the bucket to an answer *)

Lemma has_column_set_index (c : string) (df : DataFrame) :
  c <> "user_id" ->
  has_column c (set_index_user_id df) = has_column c df.
Proof.
  intro Hc. unfold has_column, set_index_user_id. simpl.
  induction (columns df) as [|a t IH]; simpl; [reflexivity|].
  destruct (String.eqb_spec a "user_id") as [->|Ha]; simpl.
  - rewrite IH. apply String.eqb_neq in Hc. now rewrite Hc.
  - now rewrite IH.
Qed.

(** After [set_index("user_id")] the rows under a label are the rows of
    that user, in the order of the file. *)
Lemma loc_rows_of_user (u : Z) (rs : list Row) :
  filter (fun r => idx r =? u) (map (fun r => set_idx (user_id r) r) rs)
  = map (set_idx u) (filter (fun r => user_id r =? u) rs).
Proof.
  induction rs as [|r t IH]; simpl; [reflexivity|].
  rewrite IH. destruct (Z.eqb_spec (user_id r) u) as [E|E]; [|reflexivity].
  subst u. reflexivity.
Qed.

(** X15: loading and asking go together.  When the object of [final_ranked]
    has the columns [user_id] and [track_id] and rows of a user, then after
    [load("final_ranked")] a request of that user for [k > 0] tracks is
    answered with the first [k] track ids of exactly that user's rows of the
    file (a single row having gone through float64 if the file has a
    [score] column), in the personal order, and counted as one personal
    request. *)
Theorem load_then_get_offline {np : Sorter} (spec : SorterSpec np)
    (s3 : S3) (self : Recommendations) (raw : DataFrame) (user k : Z) :
  objects s3 (_bucket self) "recsys/recommendations/recommendations.parquet"
  = Some raw ->
  has_column "user_id" raw = true ->
  has_column "track_id" raw = true ->
  (exists r, In r (rows raw) /\ user_id r = user) ->
  0 < k ->
  exists (s3' : S3) (self' : Recommendations) (rs : list Row),
    load "final_ranked" (s3, self) = (Ok tt, (s3', self')) /\
    Permutation
      (handed_over raw
         (map (set_idx user) (filter (fun r => user_id r =? user) (rows raw))))
      rs /\
    StronglySorted (personal_before raw) rs /\
    get_offline user k self'
    = (Ok (firstn (Z.to_nat k) (map track_id rs)),
       with_stats self'
         (mkStats (request_personal_count (_stats self) + 1)
                  (request_default_count (_stats self))
                  (request_with_online_count (_stats self)))).
Proof.
  intros Ho Huid Htid (r & Hin & Hr) Hk.
  set (df := set_index_user_id raw).
  assert (Hst : stored "final_ranked" raw = df).
  { unfold stored. simpl. now rewrite Huid. }
  assert (Hrows : filter (fun r => idx r =? user) (rows df)
                  = map (set_idx user)
                        (filter (fun r => user_id r =? user) (rows raw))).
  { apply loc_rows_of_user. }
  assert (Hcol : forall c, c <> "user_id" -> has_column c df = has_column c raw).
  { intros c Hc. unfold df. now rewrite has_column_set_index. }
  assert (Htid' : has_column "track_id" df = true).
  { rewrite Hcol by discriminate. exact Htid. }
  assert (Hrow : exists r', In r' (rows df) /\ idx r' = user).
  { assert (Hm : In (set_idx user r)
                    (filter (fun r => idx r =? user) (rows df))).
    { rewrite Hrows. apply in_map. apply filter_In. split; [exact Hin|].
      now apply Z.eqb_eq. }
    apply filter_In in Hm. destruct Hm as [Hm _].
    exists (set_idx user r). split; [exact Hm|reflexivity]. }
  destruct (tier_tracks_answers spec df user Htid' Hrow) as (rs & Hp & Hs & E).
  exists (requested s3 (_bucket self)
            "recsys/recommendations/recommendations.parquet"),
         (set_recs "final_ranked" df self), rs.
  split; [rewrite <- Hst; now apply load_ok|]. split; [|split].
  - rewrite <- Hrows, (handed_over_columns raw df);
      [now rewrite <- user_rows_handed_over|].
    symmetry. apply Hcol. discriminate.
  - unfold personal_before in *.
    rewrite <- (Hcol "score"), <- (Hcol "rank") by discriminate. exact Hs.
  - rewrite get_offline_resolve. unfold resolve.
    change (final_ranked (_recs (set_recs "final_ranked" df self)))
      with (Some df).
    rewrite E. simpl. now rewrite head_nonneg by lia.
Qed.

(** A run of X15: the demonstration bucket, user 42, [k = 2]. *)
Lemma load_then_get_offline_witness :
  exists (s3' : S3) (self' : Recommendations) (rs : list Row),
    load "final_ranked" (store_demo, init "bucket") = (Ok tt, (s3', self')) /\
    Permutation
      (handed_over raw_final
         (map (set_idx 42)
              (filter (fun r => user_id r =? 42) (rows raw_final))))
      rs /\
    StronglySorted (personal_before raw_final) rs /\
    get_offline (np := insertion_sorter) 42 2 self'
    = (Ok (firstn (Z.to_nat 2) (map track_id rs)),
       with_stats self'
         (mkStats (request_personal_count (_stats (init "bucket")) + 1)
                  (request_default_count (_stats (init "bucket")))
                  (request_with_online_count (_stats (init "bucket"))))).
Proof.
  apply (load_then_get_offline insertion_sorter_spec store_demo
           (init "bucket") raw_final 42 2).
  - reflexivity.
  - reflexivity.
  - reflexivity.
  - exists (mkRow 1 42 7 (5 # 10) 2 0). split; [simpl; auto|reflexivity].
  - lia.
Defined.

(** X16: [_order_top] keeps the columns and rearranges the rows into the
    popularity order ([listen_count] descending, then [rank] ascending, on
    the columns that are there); a table with neither column comes back as
    it is. *)
Theorem order_top_orders {np : Sorter} (spec : SorterSpec np) (df : DataFrame) :
  columns (_order_top df) = columns df /\
  Permutation (rows df) (rows (_order_top df)) /\
  StronglySorted (popular_before df) (rows (_order_top df)) /\
  (has_column "listen_count" df = false -> has_column "rank" df = false ->
   _order_top df = df).
Proof.
  destruct (order_top_sorted spec df) as (Hc & Hp & Hs).
  repeat split; try assumption.
  intros H1 H2. unfold _order_top. now rewrite H1, H2.
Qed.

(** A run of X16 on the popular table of the demonstration bucket. *)
Lemma order_top_orders_witness :
  columns (_order_top (np := insertion_sorter) raw_top) = columns raw_top /\
  Permutation (rows raw_top) (rows (_order_top (np := insertion_sorter) raw_top)) /\
  StronglySorted (popular_before raw_top)
                 (rows (_order_top (np := insertion_sorter) raw_top)) /\
  (has_column "listen_count" raw_top = false ->
   has_column "rank" raw_top = false ->
   _order_top (np := insertion_sorter) raw_top = raw_top).
Proof.
  exact (order_top_orders insertion_sorter_spec raw_top).
Defined.

(** *** The application *)

(** The constructor on a complete environment. *)
Lemma init_ok (env : Env) (b : string) :
  (forall n, In n ["AWS_ACCESS_KEY_ID"; "AWS_SECRET_ACCESS_KEY";
                   "student_s3_bucket"] ->
             exists v, env n = Some v /\ v <> "") ->
  env "student_s3_bucket" = Some b ->
  __init__ env = Ok (init b).
Proof.
  intros Hall Hb. unfold __init__, make_s3_client, _require_env.
  assert (E : filter (unset env)
                ["AWS_ACCESS_KEY_ID"; "AWS_SECRET_ACCESS_KEY";
                 "student_s3_bucket"] = []).
  { apply filter_nil_iff. intros n Hn. apply unset_false. now apply Hall. }
  rewrite E, Hb. reflexivity.
Qed.



(** X18: on an environment with the three variables and a bucket that holds
    the three objects, start-up succeeds: it requests the final ranking, the
    ALS table and the popular table, in this order and nothing else, and the
    service it leaves has all three tables and zero counters. *)
Theorem lifespan_loads_three_tables (env : Env) (s3 : S3) (b : string)
    (fr pa tp : DataFrame) :
  (forall n, In n ["AWS_ACCESS_KEY_ID"; "AWS_SECRET_ACCESS_KEY";
                   "student_s3_bucket"] ->
             exists v, env n = Some v /\ v <> "") ->
  env "student_s3_bucket" = Some b ->
  objects s3 b "recsys/recommendations/recommendations.parquet" = Some fr ->
  objects s3 b "recsys/recommendations/personal_als.parquet" = Some pa ->
  objects s3 b "recsys/recommendations/top_popular.parquet" = Some tp ->
  lifespan env s3
  = (Ok (mkRecommendations
           (mkRecs (Some (stored "final_ranked" fr))
                   (Some (stored "personal_als" pa))
                   (Some (stored "top_popular" tp)))
           (mkStats 0 0 0) b),
     mkS3 (objects s3)
          (requests s3
           ++ [(b, "recsys/recommendations/recommendations.parquet");
               (b, "recsys/recommendations/personal_als.parquet");
               (b, "recsys/recommendations/top_popular.parquet")])).
Proof.
  intros Henv Hb Hfr Hpa Htp.
  unfold lifespan. rewrite (init_ok env b Henv Hb).
  unfold bind.
  rewrite (load_ok "final_ranked"
             "recsys/recommendations/recommendations.parquet" fr)
    by (reflexivity || exact Hfr).
  rewrite (load_ok "personal_als"
             "recsys/recommendations/personal_als.parquet" pa)
    by (reflexivity || exact Hpa).
  rewrite (load_ok "top_popular"
             "recsys/recommendations/top_popular.parquet" tp)
    by (reflexivity || exact Htp).
  unfold requested. simpl. rewrite <- !app_assoc. reflexivity.
Qed.

(** A run of X18 on the demonstration bucket. *)
Lemma lifespan_loads_three_tables_witness :
  lifespan env_demo store_demo
  = (Ok (mkRecommendations
           (mkRecs (Some (stored "final_ranked" raw_final))
                   (Some (stored "personal_als" raw_als))
                   (Some (stored "top_popular" raw_top)))
           (mkStats 0 0 0) "bucket"),
     mkS3 (objects store_demo)
          (requests store_demo
           ++ [("bucket", "recsys/recommendations/recommendations.parquet");
               ("bucket", "recsys/recommendations/personal_als.parquet");
               ("bucket", "recsys/recommendations/top_popular.parquet")])).
Proof.
  apply (lifespan_loads_three_tables env_demo store_demo "bucket"
           raw_final raw_als raw_top); try reflexivity.
  intros n Hn. simpl in Hn.
  destruct Hn as [<-|[<-|[<-|[]]]]; eexists; (split; [reflexivity|discriminate]).
Defined.

(** X19: start-up fails fast.  With one of the three variables missing it
    raises [ValueError] without a request to the store; with the
    environment complete and the first object missing it raises the
    client's error after that one request and asks for no other table. *)
Theorem lifespan_fails_fast (env : Env) (s3 : S3) :
  ((exists n, In n ["AWS_ACCESS_KEY_ID"; "AWS_SECRET_ACCESS_KEY";
                    "student_s3_bucket"] /\ unset env n = true) ->
   exists msg, lifespan env s3 = (Raise (ValueError msg), s3)) /\
  (forall b,
     (forall n, In n ["AWS_ACCESS_KEY_ID"; "AWS_SECRET_ACCESS_KEY";
                      "student_s3_bucket"] ->
                exists v, env n = Some v /\ v <> "") ->
     env "student_s3_bucket" = Some b ->
     objects s3 b "recsys/recommendations/recommendations.parquet" = None ->
     lifespan env s3
     = (Raise (ClientError "NoSuchKey"),
        mkS3 (objects s3)
             (requests s3
              ++ [(b, "recsys/recommendations/recommendations.parquet")]))).
Proof.
  split.
  - intros (n & Hn & Hu). unfold lifespan, __init__, make_s3_client, _require_env.
    destruct (filter (unset env)
                ["AWS_ACCESS_KEY_ID"; "AWS_SECRET_ACCESS_KEY";
                 "student_s3_bucket"]) as [|m ms] eqn:E.
    + rewrite (proj1 (filter_nil_iff _ _) E n Hn) in Hu. discriminate.
    + eauto.
  - intros b Henv Hb Hfr.
    unfold lifespan. rewrite (init_ok env b Henv Hb).
    unfold bind, load. simpl dict_get. cbv iota.
    unfold bind, get, on_store, read_parquet_s3. simpl.
    rewrite Hfr. reflexivity.
Qed.

(** A run of X19: the demonstration environment on an empty store. *)
Lemma lifespan_fails_fast_witness :
  lifespan env_demo s3_empty
  = (Raise (ClientError "NoSuchKey"),
     mkS3 (objects s3_empty)
          (requests s3_empty
           ++ [("bucket", "recsys/recommendations/recommendations.parquet")])).
Proof.
  apply (proj2 (lifespan_fails_fast env_demo s3_empty) "bucket");
    try reflexivity.
  intros n Hn. simpl in Hn.
  destruct Hn as [<-|[<-|[<-|[]]]]; eexists; (split; [reflexivity|discriminate]).
Defined.

(** *** Edge of the index, and the whole path *)

Lemma loc_after (rs : list Row) (j m : Z) :
  m < j -> filter (fun r => idx r =? m) (range_index_from j rs) = [].
Proof.
  revert j. induction rs as [|r t IH]; intros j Hj; simpl; [reflexivity|].
  destruct (Z.eqb_spec j m); [lia|]. apply IH. lia.
Qed.

(** Under labels by position the rows with label [n] are the one row at
    position [n], if there is one. *)
Lemma loc_by_position (i : Z) (rs : list Row) (n : nat) :
  filter (fun r => idx r =? i + Z.of_nat n) (range_index_from i rs)
  = match nth_error rs n with
    | Some r => [set_idx (i + Z.of_nat n) r]
    | None => []
    end.
Proof.
  revert i n. induction rs as [|r t IH]; intros i n.
  - destruct n; reflexivity.
  - destruct n as [|n].
    + change (Z.of_nat 0) with 0. rewrite Z.add_0_r.
      cbn [range_index_from filter nth_error idx set_idx].
      rewrite Z.eqb_refl, loc_after by lia. reflexivity.
    + rewrite Nat2Z.inj_succ.
      replace (i + Z.succ (Z.of_nat n)) with (i + 1 + Z.of_nat n) by lia.
      cbn [range_index_from filter nth_error idx set_idx].
      destruct (Z.eqb_spec i (i + 1 + Z.of_nat n)); [lia|].
      apply IH.
Qed.

Lemma labelled_by_position (i : nat) (rs : list Row) :
  map idx rs = map Z.of_nat (seq i (List.length rs)) ->
  range_index_from (Z.of_nat i) rs = rs.
Proof.
  revert i. induction rs as [|r t IH]; intros i H; simpl; [reflexivity|].
  simpl in H. injection H as Hr Ht.
  replace (Z.of_nat i + 1) with (Z.of_nat (S i)) by lia.
  rewrite (IH (S i) Ht). f_equal.
  rewrite <- Hr. now destruct r.
Qed.

Lemma nth_range_index_from (z : Z) (rs : list Row) (n : nat) (r : Row) :
  nth_error (range_index_from z rs) n = Some r -> idx r = z + Z.of_nat n.
Proof.
  revert z n. induction rs as [|a t IH]; intros z n Hn.
  - destruct n; discriminate.
  - destruct n as [|n]; simpl in Hn.
    + injection Hn as <-. simpl. lia.
    + rewrite (IH _ _ Hn). lia.
Qed.

Lemma default_index_loc (df : DataFrame) (n : nat) (r : Row) :
  default_index df ->
  nth_error (rows df) n = Some r ->
  filter (fun r => idx r =? Z.of_nat n) (rows df) = [r].
Proof.
  intros Hd Hn.
  pose proof (loc_by_position 0 (rows df) n) as Hloc.
  rewrite Hn in Hloc. change (0 + Z.of_nat n) with (Z.of_nat n) in Hloc.
  pose proof (labelled_by_position 0 (rows df) Hd) as Hri.
  change (Z.of_nat 0) with 0 in Hri. rewrite Hri in Hloc.
  rewrite Hloc. f_equal.
  rewrite <- Hri in Hn. apply nth_range_index_from in Hn.
  change (0 + Z.of_nat n) with (Z.of_nat n) in Hn.
  rewrite <- Hn. now destruct r.
Qed.

(** X20: [load] indexes a personal table by user only if the file has a
    [user_id] column.  A file without it is stored as it was read; if it
    was saved with the default index, its rows are labelled by position and
    a request is answered by position: for [k > 0] the user id [n] gets the
    one track of row [n] of the file (through float64 if the file has a
    [score] column), and the request is counted as one personal request. *)
Theorem table_without_user_id_is_read_by_position {np : Sorter}
    (spec : SorterSpec np) (s3 : S3) (self : Recommendations)
    (raw : DataFrame) (n : nat) (r : Row) (k : Z) :
  objects s3 (_bucket self) "recsys/recommendations/recommendations.parquet"
  = Some raw ->
  default_index raw ->
  has_column "user_id" raw = false ->
  has_column "track_id" raw = true ->
  nth_error (rows raw) n = Some r ->
  0 < k ->
  exists (s3' : S3) (self' : Recommendations),
    load "final_ranked" (s3, self) = (Ok tt, (s3', self')) /\
    final_ranked (_recs self') = Some raw /\
    get_offline (Z.of_nat n) k self'
    = (Ok [track_id (as_series raw r)],
       with_stats self'
         (mkStats (request_personal_count (_stats self) + 1)
                  (request_default_count (_stats self))
                  (request_with_online_count (_stats self)))).
Proof.
  intros Ho Hd Huid Htid Hn Hk.
  assert (Hst : stored "final_ranked" raw = raw).
  { unfold stored. now rewrite Huid, andb_false_r. }
  exists (requested s3 (_bucket self)
            "recsys/recommendations/recommendations.parquet"),
         (set_recs "final_ranked" raw self).
  split.
  { rewrite (load_ok "final_ranked"
               "recsys/recommendations/recommendations.parquet" raw)
      by (reflexivity || exact Ho).
    now rewrite Hst. }
  split; [reflexivity|].
  pose proof (default_index_loc raw n r Hd Hn) as Hloc.
  assert (Hrow : exists r', In r' (rows raw) /\ idx r' = Z.of_nat n).
  { assert (Hin : In r (filter (fun r => idx r =? Z.of_nat n) (rows raw))).
    { rewrite Hloc. now left. }
    apply filter_In in Hin. destruct Hin as [Hin Hi].
    exists r. split; [exact Hin|now apply Z.eqb_eq]. }
  destruct (tier_tracks_answers spec raw (Z.of_nat n) Htid Hrow)
    as (rs & Hp & _ & E).
  rewrite user_rows_handed_over, Hloc in Hp. cbn [handed_over] in Hp.
  apply Permutation_length_1_inv in Hp. subst rs.
  rewrite get_offline_resolve. unfold resolve.
  change (final_ranked (_recs (set_recs "final_ranked" raw self)))
    with (Some raw).
  rewrite E. simpl.
  rewrite head_nonneg by lia.
  destruct (Z.to_nat k) as [|m] eqn:Ek; [lia|].
  simpl. now rewrite firstn_nil.
Qed.

(** A run of X20: the popular table of the demonstration bucket stored
    under the key of the final ranking; user id 1 gets the track of
    row 1. *)
Lemma table_without_user_id_is_read_by_position_witness :
  exists (s3' : S3) (self' : Recommendations),
    load "final_ranked"
         (mkS3 (fun _ _ => Some raw_top) [], init "bucket")
    = (Ok tt, (s3', self')) /\
    final_ranked (_recs self') = Some raw_top /\
    get_offline (np := insertion_sorter) (Z.of_nat 1) 5 self'
    = (Ok [track_id (as_series raw_top (mkRow 1 0 1 0%Q 1 1000))],
       with_stats self'
         (mkStats (request_personal_count (_stats (init "bucket")) + 1)
                  (request_default_count (_stats (init "bucket")))
                  (request_with_online_count (_stats (init "bucket"))))).
Proof.
  apply (table_without_user_id_is_read_by_position insertion_sorter_spec
           (mkS3 (fun _ _ => Some raw_top) []) (init "bucket") raw_top 1
           (mkRow 1 0 1 0%Q 1 1000) 5);
    reflexivity.
Defined.

(** Start-up on a complete environment and bucket. *)
Lemma lifespan_ok (env : Env) (s3 : S3) (b : string) (fr pa tp : DataFrame) :
  (forall n, In n ["AWS_ACCESS_KEY_ID"; "AWS_SECRET_ACCESS_KEY";
                   "student_s3_bucket"] ->
             exists v, env n = Some v /\ v <> "") ->
  env "student_s3_bucket" = Some b ->
  objects s3 b "recsys/recommendations/recommendations.parquet" = Some fr ->
  objects s3 b "recsys/recommendations/personal_als.parquet" = Some pa ->
  objects s3 b "recsys/recommendations/top_popular.parquet" = Some tp ->
  fst (lifespan env s3)
  = Ok (mkRecommendations
          (mkRecs (Some (stored "final_ranked" fr))
                  (Some (stored "personal_als" pa))
                  (Some (stored "top_popular" tp)))
          (mkStats 0 0 0) b).
Proof.
  intros Henv Hb Hfr Hpa Htp.
  unfold lifespan. rewrite (init_ok env b Henv Hb).
  unfold bind.
  rewrite (load_ok "final_ranked"
             "recsys/recommendations/recommendations.parquet" fr)
    by (reflexivity || exact Hfr).
  rewrite (load_ok "personal_als"
             "recsys/recommendations/personal_als.parquet" pa)
    by (reflexivity || exact Hpa).
  rewrite (load_ok "top_popular"
             "recsys/recommendations/top_popular.parquet" tp)
    by (reflexivity || exact Htp).
  reflexivity.
Qed.

(** A personal table read from a file with a [user_id] column does not
    answer a user who has no row in the file. *)
Lemma stored_silent (rtype : string) (raw : DataFrame) (user : Z) :
  rtype = "final_ranked" \/ rtype = "personal_als" ->
  has_column "user_id" raw = true ->
  (forall r, In r (rows raw) -> user_id r <> user) ->
  tier_silent (Some (stored rtype raw)) user = true.
Proof.
  intros Hr Huid Hno.
  assert (Hst : stored rtype raw = set_index_user_id raw).
  { unfold stored. rewrite Huid. destruct Hr as [->| ->]; reflexivity. }
  unfold tier_silent. rewrite Hst.
  apply orb_true_iff. left. apply negb_true_iff.
  apply filter_nil_existsb.
  change (rows (set_index_user_id raw))
    with (map (fun r => set_idx (user_id r) r) (rows raw)).
  rewrite loc_rows_of_user.
  replace (filter (fun r => user_id r =? user) (rows raw)) with (@nil Row);
    [reflexivity|].
  symmetry. apply filter_nil_iff. intros r Hin.
  apply Z.eqb_neq. now apply Hno.
Qed.

(** X21: the whole path for a new user.  After a start-up on a complete
    environment and bucket, a [/recommend] request without recent tracks of
    a user who has no row in either personal file is answered from the
    popular table: with the first [k] track ids of the rows of the popular
    file in the popular order, so with exactly [min k n] tracks, [n] the
    number of its rows; and it is counted as one default request. *)
Theorem new_user_gets_popular_tracks {np : Sorter} (spec : SorterSpec np)
    (env : Env) (s3 : S3) (b : string) (fr pa tp : DataFrame) (user k : Z) :
  (forall n, In n ["AWS_ACCESS_KEY_ID"; "AWS_SECRET_ACCESS_KEY";
                   "student_s3_bucket"] ->
             exists v, env n = Some v /\ v <> "") ->
  env "student_s3_bucket" = Some b ->
  objects s3 b "recsys/recommendations/recommendations.parquet" = Some fr ->
  objects s3 b "recsys/recommendations/personal_als.parquet" = Some pa ->
  objects s3 b "recsys/recommendations/top_popular.parquet" = Some tp ->
  has_column "user_id" fr = true ->
  has_column "user_id" pa = true ->
  has_column "track_id" tp = true ->
  (forall r, In r (rows fr) -> user_id r <> user) ->
  (forall r, In r (rows pa) -> user_id r <> user) ->
  0 <= k ->
  exists (service after : Recommendations) (resp : RecommendResponse)
         (rs : list Row),
    fst (lifespan env s3) = Ok service /\
    recommend (mkRequest user k None) service = (Ok resp, after) /\
    resp_user_id resp = user /\
    Permutation (rows tp) rs /\
    StronglySorted (popular_before tp) rs /\
    resp_tracks resp = firstn (Z.to_nat k) (map track_id rs) /\
    List.length (resp_tracks resp)
    = Nat.min (Z.to_nat k) (List.length (rows tp)) /\
    _stats after = mkStats 0 1 0.
Proof.
  intros Henv Hb Hfr Hpa Htp Hufr Hupa Htid Hnofr Hnopa Hk.
  set (service := mkRecommendations
                    (mkRecs (Some (stored "final_ranked" fr))
                            (Some (stored "personal_als" pa))
                            (Some (stored "top_popular" tp)))
                    (mkStats 0 0 0) b).
  change (stored "top_popular" tp) with tp in service.
  destruct (order_top_sorted spec tp) as (Hc & Hp & Hs).
  assert (E : get_offline user k service
              = (Ok (firstn (Z.to_nat k)
                       (map track_id (rows (_order_top tp)))),
                 incr_default service)).
  { rewrite get_offline_resolve. unfold resolve, service.
    cbn [_recs final_ranked personal_als top_popular].
    rewrite (proj2 (tier_tracks_silent _ _)
               (stored_silent "final_ranked" fr user (or_introl eq_refl)
                  Hufr Hnofr)).
    rewrite (proj2 (tier_tracks_silent _ _)
               (stored_silent "personal_als" pa user (or_intror eq_refl)
                  Hupa Hnopa)).
    unfold getitem_track_id, has_column. rewrite Hc.
    unfold has_column in Htid. rewrite Htid.
    cbn [map_result fst snd]. now rewrite head_nonneg by exact Hk. }
  exists service, (incr_default service),
         (mkResponse user
            (firstn (Z.to_nat k) (map track_id (rows (_order_top tp))))),
         (rows (_order_top tp)).
  split; [exact (lifespan_ok env s3 b fr pa tp Henv Hb Hfr Hpa Htp)|].
  split.
  - unfold recommend, bind, ret.
    cbn [req_recent_tracks req_user_id req_k no_recent].
    now rewrite E.
  - split; [reflexivity|]. split; [exact Hp|]. split; [exact Hs|].
    split; [reflexivity|]. split; [|reflexivity].
    cbn [resp_tracks].
    now rewrite length_firstn, length_map, <- (Permutation_length Hp).
Qed.

(** A run of X21: user 999 on the demonstration bucket asks for ten tracks
    and gets the three there are. *)
Lemma new_user_gets_popular_tracks_witness :
  exists (service after : Recommendations) (resp : RecommendResponse)
         (rs : list Row),
    fst (lifespan env_demo store_demo) = Ok service /\
    recommend (np := insertion_sorter) (mkRequest 999 10 None) service
    = (Ok resp, after) /\
    resp_user_id resp = 999 /\
    Permutation (rows raw_top) rs /\
    StronglySorted (popular_before raw_top) rs /\
    resp_tracks resp = firstn (Z.to_nat 10) (map track_id rs) /\
    List.length (resp_tracks resp)
    = Nat.min (Z.to_nat 10) (List.length (rows raw_top)) /\
    _stats after = mkStats 0 1 0.
Proof.
  apply (new_user_gets_popular_tracks insertion_sorter_spec env_demo
           store_demo "bucket" raw_final raw_als raw_top 999 10);
    try reflexivity; try lia.
  - intros n Hn. simpl in Hn.
    destruct Hn as [<-|[<-|[<-|[]]]]; eexists;
      (split; [reflexivity|discriminate]).
  - intros r Hin. simpl in Hin.
    destruct Hin as [<-|[<-|[<-|[]]]]; discriminate.
  - intros r Hin. simpl in Hin.
    destruct Hin as [<-|[<-|[]]]; discriminate.
Defined.
